(** * health-tracker: the aggregation and formatting functions of [app.py]

    A shallow embedding of [format_time_simple], [get_japan_time],
    [get_today_pee_count], [get_weekly_pee_data] and of the weekly statistics
    of the first tab, together with the parts of Python's [datetime] module
    these functions call, and the properties of the specification proved
    about them. *)

From Stdlib Require Import ZArith QArith Lia List String Ascii.
From stdpp Require Import gmap list option.

Local Open Scope Z_scope.

(** ** Python values *)

Module Py.

(** A Python [str] is a sequence of Unicode code points. *)
Abbreviation char := Z (only parsing).
Abbreviation str := (list Z) (only parsing).

(** String literals of the source are written in UTF-8; [u] decodes one into
    its code points, so that [u "16時10分"] is the Python string of six
    characters. *)
Fixpoint utf8_decode (bs : list Z) : str :=
  match bs with
  | [] => []
  | b0 :: r0 =>
    if b0 <? 128 then b0 :: utf8_decode r0
    else if b0 <? 224 then
      match r0 with
      | b1 :: r1 => ((b0 - 192) * 64 + (b1 - 128)) :: utf8_decode r1
      | _ => []
      end
    else if b0 <? 240 then
      match r0 with
      | b1 :: b2 :: r2 =>
        ((b0 - 224) * 4096 + (b1 - 128) * 64 + (b2 - 128)) :: utf8_decode r2
      | _ => []
      end
    else
      match r0 with
      | b1 :: b2 :: b3 :: r3 =>
        ((b0 - 240) * 262144 + (b1 - 128) * 4096 + (b2 - 128) * 64 + (b3 - 128))
          :: utf8_decode r3
      | _ => []
      end
  end.

Definition u (s : string) : str :=
  utf8_decode (List.map (fun a => Z.of_nat (nat_of_ascii a)) (list_ascii_of_string s)).

(** The cell values [gspread]'s [get_all_records] puts in a record: text,
    or a number when the cell reads as one. A float is kept as the pair of
    its integral significand and binary exponent. *)
Inductive value :=
| VStr (s : str)
| VInt (n : Z)
| VFloat (m e : Z).

#[global] Instance value_eq_dec : EqDecision value.
Proof. solve_decision. Defined.

(** [v == s] for a string [s]: a number never equals a string. *)
Definition eq_str (v : value) (s : str) : bool :=
  match v with
  | VStr t => bool_decide (t = s)
  | _ => false
  end.

(** [None == s] is false; [o] is the result of [dict.get] without default. *)
Definition opt_eq_str (o : option value) (s : str) : bool :=
  match o with
  | Some v => eq_str v s
  | None => false
  end.

(** A record of a worksheet: a [dict] from column names to cell values. *)
Abbreviation record := (gmap str value).

(** [r.get(k)] and [r.get(k, default)]. *)
Definition get (r : record) (k : str) : option value := r !! k.
Definition get_default (r : record) (k : str) (d : value) : value :=
  default d (r !! k).

(** A [dict] with string keys and integer values whose order is observed:
    the pairs in insertion order. *)
Definition dict := list (str * Z).

Fixpoint contains (d : dict) (k : str) : bool :=
  match d with
  | [] => false
  | (k', _) :: d' => if bool_decide (k' = k) then true else contains d' k
  end.

Fixpoint getitem (d : dict) (k : str) : option Z :=
  match d with
  | [] => None
  | (k', v) :: d' => if bool_decide (k' = k) then Some v else getitem d' k
  end.

(** [d[k] = v]: an existing key keeps its place, a new one goes last. *)
Fixpoint setitem (d : dict) (k : str) (v : Z) : dict :=
  match d with
  | [] => [(k, v)]
  | (k', v') :: d' =>
    if bool_decide (k' = k) then (k', v) :: d' else (k', v') :: setitem d' k v
  end.

Definition keys (d : dict) : list str := List.map fst d.
Definition values (d : dict) : list Z := List.map snd d.

(** [k in d] for an arbitrary value [k]: only a string can equal a key. *)
Definition value_in (k : value) (d : dict) : bool :=
  match k with
  | VStr s => contains d s
  | _ => false
  end.

(** [sum(xs)]. *)
Definition sum (xs : list Z) : Z := fold_left Z.add xs 0.

(** [len(xs)]. *)
Definition len {A} (xs : list A) : Z := Z.of_nat (length xs).

(** Decimal digits of a non-negative integer, most significant first. *)
Fixpoint uint_chars (d : Decimal.uint) : str :=
  match d with
  | Decimal.Nil => []
  | Decimal.D0 d => 48 :: uint_chars d
  | Decimal.D1 d => 49 :: uint_chars d
  | Decimal.D2 d => 50 :: uint_chars d
  | Decimal.D3 d => 51 :: uint_chars d
  | Decimal.D4 d => 52 :: uint_chars d
  | Decimal.D5 d => 53 :: uint_chars d
  | Decimal.D6 d => 54 :: uint_chars d
  | Decimal.D7 d => 55 :: uint_chars d
  | Decimal.D8 d => 56 :: uint_chars d
  | Decimal.D9 d => 57 :: uint_chars d
  end.

Definition digits (n : Z) : str := uint_chars (N.to_uint (Z.to_N n)).

(** [s.rjust(w, "0")]. *)
Definition zfill (w : nat) (s : str) : str :=
  List.repeat 48 (w - length s)%nat ++ s.

(** [f"{n}"] for an integer. *)
Definition format_d (n : Z) : str :=
  if n <? 0 then 45 :: digits (- n) else digits n.

(** [f"{n:0wd}"]: zero padding goes between the sign and the digits. *)
Definition format_0d (w : nat) (n : Z) : str :=
  if n <? 0 then 45 :: zfill (w - 1) (digits (- n)) else zfill w (digits n).

End Py.

(** ** The parts of Python's [datetime] module the program calls

    The definitions follow the reference implementation of the module
    ([_pydatetime.py] and [_strptime.py] of CPython, which are not part of
    this repository); integers are unbounded and [divmod] rounds toward
    minus infinity, as [Z.div] and [Z.modulo] do. Microseconds are left out:
    no format used by the program shows them. *)

Module Datetime.
Import Py.

Definition MINYEAR : Z := 1.
Definition MAXYEAR : Z := 9999.
Definition MAXORDINAL : Z := 3652059.

Definition DAYS_IN_MONTH : list Z :=
  [-1; 31; 28; 31; 30; 31; 30; 31; 31; 30; 31; 30; 31].
Definition DAYS_BEFORE_MONTH : list Z :=
  [-1; 0; 31; 59; 90; 120; 151; 181; 212; 243; 273; 304; 334].

(** Indexing one of the two tables. *)
Definition index (table : list Z) (i : Z) : Z := nth (Z.to_nat i) table 0.

Definition int_of_bool (b : bool) : Z := if b then 1 else 0.

Definition is_leap (year : Z) : bool :=
  (year mod 4 =? 0) && (negb (year mod 100 =? 0) || (year mod 400 =? 0)).

Definition days_before_year (year : Z) : Z :=
  let y := year - 1 in
  y * 365 + y / 4 - y / 100 + y / 400.

Definition days_in_month (year month : Z) : Z :=
  if (month =? 2) && is_leap year then 29 else index DAYS_IN_MONTH month.

Definition days_before_month (year month : Z) : Z :=
  index DAYS_BEFORE_MONTH month + int_of_bool ((2 <? month) && is_leap year).

Definition ymd2ord (year month day : Z) : Z :=
  days_before_year year + days_before_month year month + day.

Definition DI400Y : Z := Eval cbv in days_before_year 401.
Definition DI100Y : Z := Eval cbv in days_before_year 101.
Definition DI4Y : Z := Eval cbv in days_before_year 5.

Record date := mkdate { year : Z; month : Z; day : Z }.

Definition ord2ymd (n : Z) : date :=
  let n := n - 1 in
  let n400 := n / DI400Y in
  let n := n mod DI400Y in
  let year := n400 * 400 + 1 in
  let n100 := n / DI100Y in
  let n := n mod DI100Y in
  let n4 := n / DI4Y in
  let n := n mod DI4Y in
  let n1 := n / 365 in
  let n := n mod 365 in
  let year := year + (n100 * 100 + n4 * 4 + n1) in
  if (n1 =? 4) || (n100 =? 4) then mkdate (year - 1) 12 31
  else
    let leapyear := (n1 =? 3) && (negb (n4 =? 24) || (n100 =? 3)) in
    let month := Z.shiftr (n + 50) 5 in
    let preceding :=
      index DAYS_BEFORE_MONTH month + int_of_bool ((2 <? month) && leapyear) in
    if n <? preceding then
      let month := month - 1 in
      let preceding :=
        preceding
        - (index DAYS_IN_MONTH month + int_of_bool ((month =? 2) && leapyear)) in
      mkdate year month (n - preceding + 1)
    else mkdate year month (n - preceding + 1).

Definition toordinal (d : date) : Z := ymd2ord (year d) (month d) (day d).
Definition fromordinal (n : Z) : date := ord2ymd n.

(** A [timedelta], normalised so that [0 <= seconds < 86400]. *)
Record timedelta := mktimedelta { days : Z; seconds : Z }.

(** [timedelta(days=d, hours=h, minutes=m, seconds=s)]. *)
Definition new_timedelta (d h m s : Z) : timedelta :=
  let total := h * 3600 + m * 60 + s in
  mktimedelta (d + total / 86400) (total mod 86400).

Definition timedelta_add (a b : timedelta) : timedelta :=
  new_timedelta (days a + days b) 0 0 (seconds a + seconds b).

(** [d + delta] on a date; [None] stands for [OverflowError]. *)
Definition date_add (d : date) (delta : timedelta) : option date :=
  let o := toordinal d + days delta in
  if (0 <? o) && (o <=? MAXORDINAL) then Some (fromordinal o) else None.

(** [d - delta] is [d + timedelta(-delta.days)]. *)
Definition date_sub (d : date) (delta : timedelta) : option date :=
  date_add d (new_timedelta (- days delta) 0 0 0).

Record datetime :=
  mkdatetime { date_of : date; hour : Z; minute : Z; second : Z }.

(** The constructor [datetime(y, m, d, hh, mm, ss)]; [None] stands for the
    [ValueError] of a field out of range. *)
Definition new_datetime (y m d hh mm ss : Z) : option datetime :=
  if (MINYEAR <=? y) && (y <=? MAXYEAR)
     && (1 <=? m) && (m <=? 12)
     && (1 <=? d) && (d <=? days_in_month y m)
     && (0 <=? hh) && (hh <=? 23)
     && (0 <=? mm) && (mm <=? 59)
     && (0 <=? ss) && (ss <=? 59)
  then Some (mkdatetime (mkdate y m d) hh mm ss)
  else None.

(** [dt + delta] on a datetime; [None] stands for [OverflowError]. *)
Definition datetime_add (dt : datetime) (delta : timedelta) : option datetime :=
  let delta :=
    timedelta_add
      (new_timedelta (toordinal (date_of dt)) (hour dt) (minute dt) (second dt))
      delta in
  let hour := seconds delta / 3600 in
  let rem := seconds delta mod 3600 in
  let minute := rem / 60 in
  let second := rem mod 60 in
  if (0 <? days delta) && (days delta <=? MAXORDINAL)
  then Some (mkdatetime (fromordinal (days delta)) hour minute second)
  else None.

(** Ordinal of 1970-01-01, the day of POSIX time 0. *)
Definition EPOCH_ORDINAL : Z := Eval cbv in ymd2ord 1970 1 1.

(** [time.gmtime(t)] for whole seconds [t]: the civil date and time of day
    in UTC. *)
Definition gmtime (t : Z) : date * (Z * Z * Z) :=
  let sod := t mod 86400 in
  (ord2ymd (EPOCH_ORDINAL + t / 86400), (sod / 3600, sod mod 3600 / 60, sod mod 60)).

(** [datetime.fromtimestamp(t, tz)] for a fixed-offset zone: the UTC fields
    of [t], then [tz.fromutc], which adds the offset. *)
Definition fromtimestamp (t : Z) (utcoffset : timedelta) : option datetime :=
  let '(d, (hh, mm, ss)) := gmtime t in
  result ← new_datetime (year d) (month d) (day d) hh mm (Z.min ss 59);
  datetime_add result utcoffset.

(** [strftime("%Y-%m-%d")] on a date or a datetime. *)
Definition strftime_Ymd (d : date) : str :=
  format_0d 4 (year d) ++ u "-" ++ format_0d 2 (month d) ++ u "-" ++ format_0d 2 (day d).

(** *** [strptime(s, "%H:%M:%S")]

    [_strptime] turns the format into the regular expression
    [(?P<H>2[0-3]|[0-1]\d|\d):(?P<M>[0-5]\d|\d):(?P<S>6[0-1]|[0-5]\d|\d)]
    (CPython 3.8 to 3.12), matches it at the start of the string, rejects a
    match that leaves characters over, converts the three groups with [int]
    and hands them to the [datetime] constructor. [\d] and [int] follow the Unicode database:
    [decimal c] is the digit value of a character of category Nd. *)

Section Strptime.

Variable decimal : char -> option Z.

(** A matcher lists the ways of matching a prefix, in the order a
    backtracking engine tries them: what was matched and the rest. *)
Definition matcher (A : Type) := str -> list (A * str).

Definition ret {A} (a : A) : matcher A := fun s => [(a, s)].

Definition bind {A B} (p : matcher A) (f : A -> matcher B) : matcher B :=
  fun s => List.concat (List.map (fun '(a, r) => f a r) (p s)).

Definition lit (c : char) : matcher str := fun s =>
  match s with
  | c' :: r => if c' =? c then [([c'], r)] else []
  | [] => []
  end.

(** The class [[lo-hi]]. *)
Definition cls (lo hi : char) : matcher str := fun s =>
  match s with
  | c' :: r => if (lo <=? c') && (c' <=? hi) then [([c'], r)] else []
  | [] => []
  end.

(** [\d]. *)
Definition digit : matcher str := fun s =>
  match s with
  | c' :: r => match decimal c' with Some _ => [([c'], r)] | None => [] end
  | [] => []
  end.

Definition alt {A} (p q : matcher A) : matcher A := fun s => p s ++ q s.

Definition cat (p q : matcher str) : matcher str :=
  bind p (fun a => bind q (fun b => ret (a ++ b))).

Definition re_H : matcher str :=
  alt (cat (lit 50) (cls 48 51)) (alt (cat (cls 48 49) digit) digit).
Definition re_M : matcher str := alt (cat (cls 48 53) digit) digit.
Definition re_S : matcher str :=
  alt (cat (lit 54) (cls 48 49)) (alt (cat (cls 48 53) digit) digit).

Definition re_HMS : matcher (str * str * str) :=
  bind re_H (fun h =>
  bind (lit 58) (fun _ =>
  bind re_M (fun m =>
  bind (lit 58) (fun _ =>
  bind re_S (fun sec => ret (h, m, sec)))))).

(** [re.match]: the groups of the first match and what follows it. *)
Definition match_HMS (s : str) : option (str * str * str * str) :=
  head (re_HMS s).

(** [int(s)] on a group; [None] stands for [ValueError]. *)
Definition int (s : str) : option Z :=
  match s with
  | [] => None
  | _ =>
    fold_left
      (fun acc c => a ← acc; d ← decimal c; Some (10 * a + d)) s (Some 0)
  end.

Definition strptime_HMS (data_string : str) : option datetime :=
  '(h, m, sec, rest) ← match_HMS data_string;
  if negb (bool_decide (rest = [])) then None
  else
    hour ← int h;
    minute ← int m;
    second ← int sec;
    new_datetime 1900 1 1 hour minute second.

End Strptime.

(** The decimal digits of ASCII. *)
Definition ascii_decimal (c : char) : option Z :=
  if (48 <=? c) && (c <=? 57) then Some (c - 48) else None.

End Datetime.

(** ** The program *)

Module App.
Import Py Datetime.

(** A [for] loop over [xs] that threads a state and stops at the first
    exception. *)
Fixpoint for_each {A S : Type} (body : S -> A -> option S) (xs : list A) (s : S)
  : option S :=
  match xs with
  | [] => Some s
  | x :: xs' => s' ← body s x; for_each body xs' s'
  end.

(** [range(start, stop, step)] for a non-zero step. *)
Definition range (start stop step : Z) : list Z :=
  let n :=
    if 0 <? step then (stop - start + step - 1) / step
    else (start - stop - step - 1) / (- step) in
  List.map (fun i => start + Z.of_nat i * step) (seq 0 (Z.to_nat n)).

(** [JST = timezone(timedelta(hours=9))]. *)
Definition JST : timedelta := new_timedelta 0 9 0 0.

(** [datetime.now(JST)]. The function reads the system clock; [clock] is
    the reading it gets, in whole seconds of POSIX time. *)
Definition get_japan_time (clock : Z) : option datetime :=
  fromtimestamp clock JST.

Section Format.

Variable decimal : char -> option Z.

Definition format_time_simple (time_str : str) : str :=
  match strptime_HMS decimal time_str with
  | Some time_obj =>
    let hour := hour time_obj in
    let minute := minute time_obj in
    format_d hour ++ u "時" ++ format_0d 2 minute ++ u "分"
  | None => time_str
  end.

End Format.

(** Both aggregation functions take the record list only and call
    [get_japan_time] themselves; [clock] is what that call reads. *)
Definition get_today_pee_count (pee_data : list record) (clock : Z) : option Z :=
  now ← get_japan_time clock;
  let today := strftime_Ymd (date_of now) in
  Some (len (List.filter (fun r => opt_eq_str (get r (u "date")) today) pee_data)).

(** The body of the second loop: [if date in weekly_data:
    weekly_data[date] += 1]. A [KeyError] would be [None]. *)
Definition count_record (weekly_data : dict) (record : record) : option dict :=
  let date := get_default record (u "date") (VStr (u "")) in
  if value_in date weekly_data then
    match date with
    | VStr k => n ← getitem weekly_data k; Some (setitem weekly_data k (n + 1))
    | _ => None
    end
  else Some weekly_data.

Definition get_weekly_pee_data (pee_data : list record) (clock : Z) : option dict :=
  now ← get_japan_time clock;
  let today := date_of now in
  weekly_data ←
    for_each
      (fun weekly_data i =>
         d ← date_sub today (new_timedelta i 0 0 0);
         Some (setitem weekly_data (strftime_Ymd d) 0))
      (range 6 (-1) (-1)) [];
  for_each count_record pee_data weekly_data.

(** The two metrics under the chart of the first tab: the weekly total and
    the daily average. Python's [/] gives the float nearest to the quotient;
    the quotient itself is kept here. *)
Definition weekly_statistics (pee_data : list record) (clock : Z) : option (Z * Q) :=
  weekly_data ← get_weekly_pee_data pee_data clock;
  let total := sum (values weekly_data) in
  let avg := (inject_Z (sum (values weekly_data)) / 7)%Q in
  Some (total, avg).

End App.

(** ** Notions the specification is stated with *)

Module Spec.
Import Py Datetime App.

(** The calendar successor of a date: the next day of the month, else the
    first of the next month, else the first of January of the next year. *)
Definition next_day (d : date) : date :=
  if day d <? days_in_month (year d) (month d)
  then mkdate (year d) (month d) (day d + 1)
  else if month d <? 12 then mkdate (year d) (month d + 1) 1
  else mkdate (year d + 1) 1 1.

(** Chronological order on dates. *)
Definition date_lt (a b : date) : Prop :=
  year a < year b
  \/ (year a = year b /\ month a < month b)
  \/ (year a = year b /\ month a = month b /\ day a < day b).

Definition valid_date (d : date) : Prop :=
  1 <= month d <= 12 /\ 1 <= day d <= days_in_month (year d) (month d).


(** The record has a [date] field that is the string [k]. *)
Definition date_is (k : str) (r : record) : bool :=
  opt_eq_str (get r (u "date")) k.

(** Number of records dated [k]. *)
Definition count_date (k : str) (pee_data : list record) : Z :=
  len (List.filter (date_is k) pee_data).

(** The seven dates that end on day number [o], oldest first. *)
Definition week (o : Z) : list date :=
  List.map (fun i => ord2ymd (o - i)) [6; 5; 4; 3; 2; 1; 0].

(** The bucket of a date for a record list. *)
Definition bucket (pee_data : list record) (d : date) : str * Z :=
  (strftime_Ymd d, count_date (strftime_Ymd d) pee_data).

(** What a record adds to the bucket of [k], and the effect of a list of
    records on a dictionary of counts. *)
Definition hits (k : str) (r : record) : Z := if date_is k r then 1 else 0.
Definition add_counts (pee_data : list record) (d : dict) : dict :=
  List.map (fun '(k, v) => (k, v + count_date k pee_data)) d.

(** The record's date is one of the keys [ks]. *)
Definition in_window (ks : list str) (r : record) : bool :=
  existsb (fun k => date_is k r) ks.


(** A record that holds a date and nothing else, and the example of the
    specification: its records and the weekly series it expects. *)
Definition dated (d : str) : record := {[ u "date" := VStr d ]}.
Definition example_records : list record :=
  [dated (u "2024-06-10"); dated (u "2024-06-10"); dated (u "2024-06-08");
   dated (u "2024-06-01")].

(** The clock readings considered: from the POSIX epoch to the last second
    whose UTC+9 date [datetime] can hold (9999-12-31T23:59:59+09:00). *)
Definition valid_clock (clock : Z) : Prop := 0 <= clock < 253402268400.

(** The day number, in the numbering of [toordinal], of the calendar date
    that a clock reading falls on nine hours east of Greenwich. *)
Definition jst_ordinal (clock : Z) : Z :=
  EPOCH_ORDINAL + (clock + 9 * 3600) / 86400.

(** The date [get_japan_time] reports. *)
Definition jst_today (clock : Z) : option date :=
  date_of <$> get_japan_time clock.

(** A number below 100 in two digits, below 10000 in four. *)
Definition digits2 (n : Z) : str := [48 + n / 10; 48 + n mod 10].
Definition digits4 (n : Z) : str :=
  [48 + n / 1000; 48 + n / 100 mod 10; 48 + n / 10 mod 10; 48 + n mod 10].

(** What is checked of the integer formats on every number below 10000. *)
Definition format_check (n : Z) : bool :=
  bool_decide (format_0d 4 n = digits4 n)
  && ((100 <=? n) || bool_decide (format_0d 2 n = digits2 n))
  && ((100 <=? n)
      || bool_decide (format_d n = if n <? 10 then [48 + n] else digits2 n)).

Definition date_eqb (a b : date) : bool :=
  (year a =? year b) && (month a =? month b) && (day a =? day b).

(** A matcher that consumes exactly one character. *)
Definition one_char (p : matcher (list Z)) : Prop :=
  forall s a r, In (a, r) (p s) -> exists c, a = [c] /\ s = c :: r.

(** The label the specification asks for: the hour as it is, the minute
    in two digits. *)
Definition time_label (h m : Z) : str :=
  (if h <? 10 then [48 + h] else digits2 h) ++ u "時" ++ digits2 m ++ u "分".

(** The time of day [h:m:s] written as [HH:MM:SS]. *)
Definition hms_string (h m s : Z) : str :=
  digits2 h ++ u ":" ++ digits2 m ++ u ":" ++ digits2 s.

(** The digit table agrees with Unicode on ASCII: there the decimal digits
    are the characters [0] to [9]. *)
Definition ascii_digits (decimal : Z -> option Z) : Prop :=
  forall c, c < 128 -> decimal c = ascii_decimal c.

(** A table made to agree with ASCII below 128. *)
Definition mix (decimal : Z -> option Z) (c : Z) : option Z :=
  if c <? 128 then ascii_decimal c else decimal c.

(** What is checked of [strptime_HMS] on every second of the day, [n] being
    the second's number: the string [HH:MM:SS] parses to its fields. *)
Definition canonical_check (decimal : Z -> option Z) (n : Z) : bool :=
  let h := n / 3600 in
  let m := n mod 3600 / 60 in
  let s := n mod 60 in
  match strptime_HMS (mix decimal) (hms_string h m s) with
  | Some t =>
    date_eqb (date_of t) (mkdate 1900 1 1)
    && (hour t =? h) && (minute t =? m) && (second t =? s)
  | None => false
  end.

(** Dates whose fields fit the widths of [%Y-%m-%d]. *)
Definition fits (d : date) : Prop :=
  0 <= year d < 10000 /\ 0 <= month d < 100 /\ 0 <= day d < 100.

(** Moving a date by whole years. *)
Definition shift_years (k : Z) (d : date) : date :=
  mkdate (year d + k) (month d) (day d).

(** What is checked of [ord2ymd] on every day of one cycle of 400 years. *)
Definition cycle_check (n : Z) : bool :=
  let d := ord2ymd n in
  (toordinal d =? n)
  && (1 <=? year d) && (year d <=? 400)
  && ((145731 <? n) || (year d <=? 399))
  && (1 <=? month d) && (month d <=? 12)
  && (1 <=? day d) && (day d <=? days_in_month (year d) (month d))
  && date_eqb (ord2ymd (n + 1)) (next_day d).

(** The same facts as propositions. *)
Record cycle_day (n : Z) : Prop := {
  cd_ord : toordinal (ord2ymd n) = n;
  cd_year : 1 <= year (ord2ymd n) <= 400;
  cd_late : 145731 < n \/ year (ord2ymd n) <= 399;
  cd_valid : valid_date (ord2ymd n);
  cd_succ : ord2ymd (n + 1) = next_day (ord2ymd n) }.

(** [check] on the [fuel] integers from [n] on. *)
Fixpoint all_from (check : Z -> bool) (fuel : nat) (n : Z) : bool :=
  match fuel with
  | O => true
  | S fuel' => check n && all_from check fuel' (n + 1)
  end.

End Spec.

(** ** The script of the first tab *)

Module Page.
Import Py Datetime App.

(** [strftime("%H:%M:%S")] and [strftime("%Y-%m-%d %H:%M:%S")]. *)
Definition strftime_HMS (t : datetime) : str :=
  format_0d 2 (hour t) ++ u ":" ++ format_0d 2 (minute t) ++ u ":"
  ++ format_0d 2 (second t).

Definition strftime_Ymd_HMS (t : datetime) : str :=
  strftime_Ymd (date_of t) ++ u " " ++ strftime_HMS t.

(** The record the button handler builds from [now = get_japan_time()]. *)
Definition new_record (now : datetime) : record :=
  {[ u "date" := VStr (strftime_Ymd (date_of now));
     u "time" := VStr (strftime_HMS now);
     u "datetime" := VStr (strftime_Ymd_HMS now) ]}.


(** [format_time_simple] on any cell value: [strptime] raises [TypeError]
    on a value that is not a string, and the bare [except] returns the
    argument. *)
Definition format_time_value (decimal : Z -> option Z) (v : value) : value :=
  match v with
  | VStr s => VStr (format_time_simple decimal s)
  | _ => v
  end.

(** [enumerate(xs, start)]. *)
Fixpoint enumerate {A} (start : Z) (xs : list A) : list (Z * A) :=
  match xs with
  | [] => []
  | x :: xs' => (start, x) :: enumerate (start + 1) xs'
  end.

(** The list of today's records: the number and the formatted time of each
    row that [st.markdown] renders; no row stands for the branch that shows
    [st.info]. The script reads the clock again here. *)
Definition today_rows (decimal : Z -> option Z) (pee_data : list record) (clock : Z)
  : option (list (Z * value)) :=
  now ← get_japan_time clock;
  let today := strftime_Ymd (date_of now) in
  let today_records :=
    List.filter (fun r => opt_eq_str (get r (u "date")) today) pee_data in
  Some (List.map
          (fun '(i, record) =>
             let time_str := get_default record (u "time") (VStr (u "")) in
             let formatted_time := format_time_value decimal time_str in
             (i, formatted_time))
          (enumerate 1 today_records)).

End Page.

(** ** Reading and writing the spreadsheet

    [gspread] and Streamlit are outside the program: a call to them is a
    step on a remote state that returns or raises, and nothing more is
    assumed of it. *)

Module Store.
Import Py.

(** The exceptions the program tells apart: [WorksheetNotFound], the
    [KeyError] of a missing field, and any other [Exception], [E] being what
    such an exception carries. *)
Inductive exn (E : Type) :=
| WorksheetNotFound
| KeyError (k : list Z)
| Other (e : E).
Arguments WorksheetNotFound {E}.
Arguments KeyError {E} k.
Arguments Other {E} e.

Inductive outcome (E A : Type) :=
| Ret (a : A)
| Raise (e : exn E).
Arguments Ret {E A} a.
Arguments Raise {E A} e.

(** The services: the types of their objects and their calls, each a step
    on the remote state [remote]. *)
Record service := {
  remote : Type;
  failure : Type;
  secret : Type;
  credentials : Type;
  client : Type;
  spreadsheet : Type;
  worksheet_handle : Type;
  secrets_getitem : list Z -> remote -> outcome failure secret * remote;
  from_service_account_info :
    secret -> list (list Z) -> remote -> outcome failure credentials * remote;
  authorize : credentials -> remote -> outcome failure client * remote;
  open_by_url : client -> secret -> remote -> outcome failure spreadsheet * remote;
  worksheet :
    spreadsheet -> list Z -> remote -> outcome failure worksheet_handle * remote;
  add_worksheet :
    spreadsheet -> list Z -> Z -> Z -> remote
    -> outcome failure worksheet_handle * remote;
  append_row :
    worksheet_handle -> list value -> remote -> outcome failure unit * remote;
  get_all_records :
    worksheet_handle -> remote -> outcome failure (list record) * remote }.

Section Programs.

Variable svc : service.

(** What the page has shown through [st.error]: the text before the
    exception and the exception. *)
Record world := mkworld {
  store : remote svc;
  errors : list (list Z * exn (failure svc)) }.

(** A piece of program runs on the world and returns or raises. *)
Definition prog (A : Type) := world -> outcome (failure svc) A * world.

Definition ret {A} (a : A) : prog A := fun w => (Ret a, w).

Definition raise {A} (e : exn (failure svc)) : prog A := fun w => (Raise e, w).

Definition bind {A B} (m : prog A) (f : A -> prog B) : prog B := fun w =>
  match m w with
  | (Ret a, w') => f a w'
  | (Raise e, w') => (Raise e, w')
  end.

(** A call to a service. *)
Definition call {A} (c : remote svc -> outcome (failure svc) A * remote svc) : prog A :=
  fun w => let '(o, r) := c (store w) in (o, mkworld r (errors w)).

(** [try: body / except ...: handler]: the handler gets every exception of
    the body and re-raises the ones no clause takes; what the handler raises
    is not caught. *)
Definition try_except {A} (body : prog A) (handler : exn (failure svc) -> prog A)
  : prog A := fun w =>
  match body w with
  | (Ret a, w') => (Ret a, w')
  | (Raise e, w') => handler e w'
  end.

Definition st_error (text : list Z) (e : exn (failure svc)) : prog unit := fun w =>
  (Ret tt, mkworld (store w) (errors w ++ [(text, e)])).

(** [record[k]]. *)
Definition getitem (r : record) (k : list Z) : prog value :=
  match r !! k with
  | Some v => ret v
  | None => raise (KeyError k)
  end.

Notation "'run' x := m 'in' k" := (bind m (fun x => k))
  (at level 10, x name, m at level 100, k at level 200).

Definition scopes : list (list Z) :=
  [u "https://www.googleapis.com/auth/spreadsheets";
   u "https://www.googleapis.com/auth/drive"].

Definition get_google_connection : prog (client svc) :=
  run info := call (secrets_getitem svc (u "gcp_service_account")) in
  run credentials := call (from_service_account_info svc info scopes) in
  run client := call (authorize svc credentials) in
  ret client.

Definition get_spreadsheet : prog (spreadsheet svc) :=
  run client := get_google_connection in
  run spreadsheet_url := call (secrets_getitem svc (u "spreadsheet_url")) in
  call (open_by_url svc client spreadsheet_url).

Definition pee_header : list value :=
  [VStr (u "date"); VStr (u "time"); VStr (u "datetime")].

Definition bp_header : list value :=
  [VStr (u "date"); VStr (u "time"); VStr (u "datetime"); VStr (u "systolic");
   VStr (u "diastolic"); VStr (u "pulse"); VStr (u "memo")].

Definition load_pee_data : prog (list record) :=
  try_except
    (run spreadsheet := get_spreadsheet in
     run worksheet := call (worksheet svc spreadsheet (u "トイレ記録")) in
     run records := call (get_all_records svc worksheet) in
     ret records)
    (fun e =>
       match e with
       | WorksheetNotFound =>
         run spreadsheet := get_spreadsheet in
         run worksheet := call (add_worksheet svc spreadsheet (u "トイレ記録") 1000 3) in
         run _ := call (append_row svc worksheet pee_header) in
         ret []
       | _ =>
         run _ := st_error (u "データ読み込みエラー: ") e in
         ret []
       end).

Definition save_pee_record (record : record) : prog bool :=
  try_except
    (run spreadsheet := get_spreadsheet in
     run worksheet :=
       try_except
         (call (worksheet svc spreadsheet (u "トイレ記録")))
         (fun e =>
            match e with
            | WorksheetNotFound =>
              run worksheet :=
                call (add_worksheet svc spreadsheet (u "トイレ記録") 1000 3) in
              run _ := call (append_row svc worksheet pee_header) in
              ret worksheet
            | _ => raise e
            end) in
     run date := getitem record (u "date") in
     run time := getitem record (u "time") in
     run datetime := getitem record (u "datetime") in
     run _ := call (append_row svc worksheet [date; time; datetime]) in
     ret true)
    (fun e =>
       run _ := st_error (u "保存エラー: ") e in
       ret false).

Definition load_bp_data : prog (list record) :=
  try_except
    (run spreadsheet := get_spreadsheet in
     run worksheet := call (worksheet svc spreadsheet (u "血圧記録")) in
     run records := call (get_all_records svc worksheet) in
     ret records)
    (fun e =>
       match e with
       | WorksheetNotFound =>
         run spreadsheet := get_spreadsheet in
         run worksheet := call (add_worksheet svc spreadsheet (u "血圧記録") 1000 7) in
         run _ := call (append_row svc worksheet bp_header) in
         ret []
       | _ =>
         run _ := st_error (u "データ読み込みエラー: ") e in
         ret []
       end).

Definition save_bp_record (record : record) : prog bool :=
  try_except
    (run spreadsheet := get_spreadsheet in
     run worksheet :=
       try_except
         (call (worksheet svc spreadsheet (u "血圧記録")))
         (fun e =>
            match e with
            | WorksheetNotFound =>
              run worksheet :=
                call (add_worksheet svc spreadsheet (u "血圧記録") 1000 7) in
              run _ := call (append_row svc worksheet bp_header) in
              ret worksheet
            | _ => raise e
            end) in
     run date := getitem record (u "date") in
     run time := getitem record (u "time") in
     run datetime := getitem record (u "datetime") in
     run systolic := getitem record (u "systolic") in
     run diastolic := getitem record (u "diastolic") in
     run pulse := getitem record (u "pulse") in
     run memo := getitem record (u "memo") in
     run _ := call (append_row svc worksheet
                  [date; time; datetime; systolic; diastolic; pulse; memo]) in
     ret true)
    (fun e =>
       run _ := st_error (u "保存エラー: ") e in
       ret false).

End Programs.

Arguments store {svc} w.
Arguments errors {svc} w.
Arguments mkworld {svc} store errors.

(** A service whose objects carry nothing: [worksheet] reports the sheet
    missing and [add_worksheet] raises; the other calls return. *)
Definition broken_service : service := {|
  remote := unit;
  failure := unit;
  secret := unit;
  credentials := unit;
  client := unit;
  spreadsheet := unit;
  worksheet_handle := unit;
  secrets_getitem := fun _ r => (Ret tt, r);
  from_service_account_info := fun _ _ r => (Ret tt, r);
  authorize := fun _ r => (Ret tt, r);
  open_by_url := fun _ _ r => (Ret tt, r);
  worksheet := fun _ _ r => (Raise WorksheetNotFound, r);
  add_worksheet := fun _ _ _ _ r => (Raise (Other tt), r);
  append_row := fun _ _ r => (Ret tt, r);
  get_all_records := fun _ r => (Ret [], r) |}.

(** A spreadsheet kept in memory, to run the programs on: a worksheet is
    its rows, a row the values appended. [read_cell] is what
    [get_all_records] gives for a cell as it was written (it reads the text
    of the cell and turns it into a number when it reads as one). The first
    row gives the keys; a key that is not text makes the call fail. As in
    [dict(zip(keys, row))], a later column wins over an earlier one of the
    same name and a row is cut to the number of keys. *)
Definition header_keys (header : list value) : option (list (list Z)) :=
  mapM (fun v => match v with VStr k => Some k | _ => None end) header.

Definition row_record (read_cell : value -> value) (ks : list (list Z))
  (row : list value) : record :=
  list_to_map (reverse (zip ks (read_cell <$> row))).

Definition memory_service (read_cell : value -> value) : service := {|
  remote := gmap (list Z) (list (list value));
  failure := unit;
  secret := unit;
  credentials := unit;
  client := unit;
  spreadsheet := unit;
  worksheet_handle := list Z;
  secrets_getitem := fun _ r => (Ret tt, r);
  from_service_account_info := fun _ _ r => (Ret tt, r);
  authorize := fun _ r => (Ret tt, r);
  open_by_url := fun _ _ r => (Ret tt, r);
  worksheet := fun _ title r =>
    match r !! title with
    | Some _ => (Ret title, r)
    | None => (Raise WorksheetNotFound, r)
    end;
  add_worksheet := fun _ title _ _ r =>
    match r !! title with
    | Some _ => (Raise (Other tt), r)
    | None => (Ret title, <[title := []]> r)
    end;
  append_row := fun ws row r =>
    match r !! ws with
    | Some rows => (Ret tt, <[ws := rows ++ [row]]> r)
    | None => (Raise (Other tt), r)
    end;
  get_all_records := fun ws r =>
    match r !! ws with
    | Some [] => (Ret [], r)
    | Some (header :: rows) =>
      match header_keys header with
      | Some ks => (Ret (row_record read_cell ks <$> rows), r)
      | None => (Raise (Other tt), r)
      end
    | None => (Raise (Other tt), r)
    end |}.

(** Running a program on the spreadsheet in memory. *)
Ltac run_program :=
  cbv beta iota delta [load_pee_data save_pee_record try_except bind get_spreadsheet
                        get_google_connection call getitem ret raise st_error];
  cbn [memory_service secrets_getitem from_service_account_info authorize
       open_by_url worksheet add_worksheet append_row get_all_records store errors].

(** The world of the spreadsheet in memory. *)
Definition memory_world (read_cell : value -> value)
  (sheets : gmap (list Z) (list (list value))) (errs : list (list Z * exn unit))
  : world (memory_service read_cell) :=
  mkworld (svc := memory_service read_cell) sheets errs.

(** Case analysis on the outcome of the next call. *)
Ltac next_call :=
  match goal with
  | |- context [match ?c with _ => _ end] =>
    match type of c with
    | (outcome _ _ * remote _)%type => destruct c as [[?|?] ?] eqn:?
    | option _ => destruct c eqn:?
    | exn _ => destruct c
    end
  end.

End Store.

(** ** Further notions *)

Module Order.

(** [a < b] on strings: the order of the first code point that differs. *)
Fixpoint str_ltb (a b : list Z) : bool :=
  match a, b with
  | _, [] => false
  | [], _ :: _ => true
  | x :: a', y :: b' =>
    if x <? y then true else if x =? y then str_ltb a' b' else false
  end.

End Order.

(** ** The calendar of [datetime] *)

Module CalendarFacts.
Import Py Datetime Spec.

Lemma date_eqb_eq a b : date_eqb a b = true -> a = b.
Proof.
  destruct a, b; unfold date_eqb; cbn.
  rewrite !andb_true_iff, !Z.eqb_eq. intros [[-> ->] ->]. reflexivity.
Qed.

Lemma all_from_spec check fuel : forall n k,
  all_from check fuel n = true -> n <= k < n + Z.of_nat fuel -> check k = true.
Proof.
  induction fuel as [|fuel IH]; intros n k H Hk; [lia|].
  cbn [all_from] in H. apply andb_true_iff in H as [H0 H1].
  destruct (Z.eq_dec k n) as [->|Hne]; [exact H0|].
  apply (IH (n + 1)); [exact H1|lia].
Qed.

(** Every day of the cycle that starts on 0001-01-01 passes the check. *)
Lemma cycle_checked : all_from cycle_check (Z.to_nat 146097) 1 = true.
Proof. vm_cast_no_check (eq_refl true). Qed.

Lemma cycle_check_in n : 1 <= n <= 146097 -> cycle_check n = true.
Proof.
  intros Hn. apply (all_from_spec _ _ _ _ cycle_checked). lia.
Qed.

(** The calendar repeats every 400 years, that is every 146097 days. *)
Lemma ord2ymd_shift n k :
  ord2ymd (n + 146097 * k) = shift_years (400 * k) (ord2ymd n).
Proof.
  unfold ord2ymd, DI400Y. cbv zeta.
  replace (n + 146097 * k - 1) with (n - 1 + k * 146097) by lia.
  rewrite Z.div_add by lia. rewrite Z_mod_plus_full.
  set (r := (n - 1) mod 146097).
  repeat match goal with
         | |- context [if ?c then _ else _] => destruct c
         end;
    unfold shift_years; cbn [year month day]; f_equal; lia.
Qed.

Lemma is_leap_shift y k : is_leap (y + 400 * k) = is_leap y.
Proof.
  unfold is_leap.
  replace ((y + 400 * k) mod 4) with (y mod 4)
    by (replace (y + 400 * k) with (y + (100 * k) * 4) by lia;
        now rewrite Z_mod_plus_full).
  replace ((y + 400 * k) mod 100) with (y mod 100)
    by (replace (y + 400 * k) with (y + (4 * k) * 100) by lia;
        now rewrite Z_mod_plus_full).
  replace ((y + 400 * k) mod 400) with (y mod 400)
    by (replace (y + 400 * k) with (y + k * 400) by lia;
        now rewrite Z_mod_plus_full).
  reflexivity.
Qed.

Lemma days_before_year_shift y k :
  days_before_year (y + 400 * k) = days_before_year y + 146097 * k.
Proof.
  unfold days_before_year. cbv zeta.
  replace ((y + 400 * k - 1) / 4) with ((y - 1) / 4 + 100 * k)
    by (replace (y + 400 * k - 1) with (y - 1 + (100 * k) * 4) by lia;
        now rewrite Z.div_add by lia).
  replace ((y + 400 * k - 1) / 100) with ((y - 1) / 100 + 4 * k)
    by (replace (y + 400 * k - 1) with (y - 1 + (4 * k) * 100) by lia;
        now rewrite Z.div_add by lia).
  replace ((y + 400 * k - 1) / 400) with ((y - 1) / 400 + k)
    by (replace (y + 400 * k - 1) with (y - 1 + k * 400) by lia;
        now rewrite Z.div_add by lia).
  lia.
Qed.

Lemma days_in_month_shift y m k :
  days_in_month (y + 400 * k) m = days_in_month y m.
Proof. unfold days_in_month. now rewrite is_leap_shift. Qed.

Lemma toordinal_shift d k :
  toordinal (shift_years (400 * k) d) = toordinal d + 146097 * k.
Proof.
  unfold toordinal, shift_years, ymd2ord, days_before_month. cbn [year month day].
  rewrite days_before_year_shift, is_leap_shift. lia.
Qed.

Lemma next_day_shift d k :
  next_day (shift_years (400 * k) d) = shift_years (400 * k) (next_day d).
Proof.
  unfold next_day, shift_years. cbn [year month day].
  rewrite days_in_month_shift.
  repeat match goal with
         | |- context [if ?c then _ else _] => destruct c
         end; cbn [year month day]; f_equal; lia.
Qed.

(** Splitting a day number into whole cycles and a day of the first one. *)
Lemma cycle_split n :
  exists q r, n = r + 146097 * q /\ 1 <= r <= 146097 /\ q = (n - 1) / 146097.
Proof.
  exists ((n - 1) / 146097), ((n - 1) mod 146097 + 1).
  pose proof (Z.div_mod (n - 1) 146097 ltac:(lia)).
  pose proof (Z.mod_pos_bound (n - 1) 146097 ltac:(lia)). lia.
Qed.

Lemma cycle_check_true n : cycle_check n = true -> cycle_day n.
Proof.
  unfold cycle_check. cbv zeta.
  rewrite !andb_true_iff, orb_true_iff, Z.eqb_eq, !Z.leb_le, Z.ltb_lt.
  intros H. decompose [and] H. split; unfold valid_date; auto using date_eqb_eq.
Qed.

Lemma cycle_day_in n : 1 <= n <= 146097 -> cycle_day n.
Proof. intros H. apply cycle_check_true, cycle_check_in, H. Qed.

(** [toordinal] undoes [fromordinal]. *)
Lemma toordinal_ord2ymd n : toordinal (ord2ymd n) = n.
Proof.
  destruct (cycle_split n) as (q & r & -> & Hr & _).
  rewrite ord2ymd_shift, toordinal_shift.
  rewrite (cd_ord _ (cycle_day_in r Hr)). reflexivity.
Qed.

Lemma ord2ymd_valid n : valid_date (ord2ymd n).
Proof.
  destruct (cycle_split n) as (q & r & -> & Hr & _).
  rewrite ord2ymd_shift. pose proof (cd_valid _ (cycle_day_in r Hr)) as Hv.
  unfold valid_date, shift_years in *. cbn [year month day].
  rewrite days_in_month_shift. exact Hv.
Qed.

(** The day after day [n] is its calendar successor. *)
Lemma ord2ymd_succ n : ord2ymd (n + 1) = next_day (ord2ymd n).
Proof.
  destruct (cycle_split n) as (q & r & -> & Hr & _).
  replace (r + 146097 * q + 1) with (r + 1 + 146097 * q) by lia.
  rewrite !ord2ymd_shift, next_day_shift. f_equal.
  apply (cd_succ _ (cycle_day_in r Hr)).
Qed.

Lemma ord2ymd_year n :
  1 <= n <= MAXORDINAL -> MINYEAR <= year (ord2ymd n) <= MAXYEAR.
Proof.
  unfold MAXORDINAL, MINYEAR, MAXYEAR. intros Hn.
  destruct (cycle_split n) as (q & r & -> & Hr & Hq).
  rewrite ord2ymd_shift. destruct (cycle_day_in r Hr) as [_ Hy Hlate _ _].
  unfold shift_years. cbn [year].
  assert (0 <= q <= 24) by lia.
  destruct Hlate; lia.
Qed.

Lemma ord2ymd_inj n m : ord2ymd n = ord2ymd m -> n = m.
Proof.
  intros H. rewrite <- (toordinal_ord2ymd n), <- (toordinal_ord2ymd m).
  now rewrite H.
Qed.

Lemma next_day_lt d : date_lt d (next_day d).
Proof.
  unfold next_day, date_lt.
  repeat match goal with
         | |- context [if ?c then _ else _] => destruct c
         end; cbn [year month day]; lia.
Qed.

End CalendarFacts.

(** ** Formatting facts *)

Module FormatFacts.
Import Py Datetime Spec CalendarFacts.

Lemma format_checked : all_from format_check (Z.to_nat 10000) 0 = true.
Proof. vm_cast_no_check (eq_refl true). Qed.

Lemma format_check_in n : 0 <= n < 10000 -> format_check n = true.
Proof. intros Hn. apply (all_from_spec _ _ _ _ format_checked). lia. Qed.

Lemma format_0d_4 n : 0 <= n < 10000 -> format_0d 4 n = digits4 n.
Proof.
  intros Hn. pose proof (format_check_in n Hn) as H. unfold format_check in H.
  rewrite !andb_true_iff in H. destruct H as [[H _] _].
  now apply bool_decide_eq_true in H.
Qed.

Lemma format_0d_2 n : 0 <= n < 100 -> format_0d 2 n = digits2 n.
Proof.
  intros Hn. pose proof (format_check_in n ltac:(lia)) as H. unfold format_check in H.
  rewrite !andb_true_iff, !orb_true_iff, Z.leb_le in H. destruct H as [[_ [H|H]] _]; [lia|].
  now apply bool_decide_eq_true in H.
Qed.

Lemma format_d_small n :
  0 <= n < 100 -> format_d n = if n <? 10 then [48 + n] else digits2 n.
Proof.
  intros Hn. pose proof (format_check_in n ltac:(lia)) as H. unfold format_check in H.
  rewrite !andb_true_iff, !orb_true_iff, Z.leb_le in H. destruct H as [_ [H|H]]; [lia|].
  now apply bool_decide_eq_true in H.
Qed.

Lemma u_dash : u "-" = [45].
Proof. reflexivity. Qed.

Lemma digits2_inj a b : 0 <= a < 100 -> 0 <= b < 100 -> digits2 a = digits2 b -> a = b.
Proof.
  unfold digits2. intros Ha Hb H. injection H as H1 H2.
  Z.div_mod_to_equations. lia.
Qed.

Lemma digits4_inj a b :
  0 <= a < 10000 -> 0 <= b < 10000 -> digits4 a = digits4 b -> a = b.
Proof.
  unfold digits4. intros Ha Hb H. injection H as H1 H2 H3 H4.
  Z.div_mod_to_equations. lia.
Qed.

Lemma strftime_Ymd_digits d :
  fits d ->
  strftime_Ymd d = digits4 (year d) ++ [45] ++ digits2 (month d) ++ [45] ++ digits2 (day d).
Proof.
  intros (Hy & Hm & Hd). unfold strftime_Ymd.
  now rewrite u_dash, format_0d_4, !format_0d_2.
Qed.

Lemma strftime_Ymd_inj a b : fits a -> fits b -> strftime_Ymd a = strftime_Ymd b -> a = b.
Proof.
  intros Ha Hb. rewrite !strftime_Ymd_digits by assumption.
  destruct Ha as (? & ? & ?), Hb as (? & ? & ?).
  destruct a as [ya ma da], b as [yb mb db]. cbn [year month day] in *.
  intros Heq.
  assert (digits4 ya = digits4 yb /\ digits2 ma = digits2 mb /\ digits2 da = digits2 db)
    as (Hy & Hm & Hd).
  { unfold digits4, digits2 in *. cbn [app] in Heq. injection Heq. intros.
    repeat split; congruence. }
  apply digits4_inj in Hy; [|lia..]. apply digits2_inj in Hm; [|lia..].
  apply digits2_inj in Hd; [|lia..]. congruence.
Qed.

Lemma strftime_Ymd_length d : fits d -> length (strftime_Ymd d) = 10%nat.
Proof. intros H. now rewrite strftime_Ymd_digits. Qed.

Lemma days_in_month_le y m : days_in_month y m <= 31.
Proof.
  unfold days_in_month. destruct (_ && _); [lia|].
  unfold index, DAYS_IN_MONTH.
  generalize (Z.to_nat m) as k. intros k.
  do 13 (destruct k as [|k]; [cbn; lia|]). cbn. destruct k; lia.
Qed.

Lemma ord2ymd_fits n : 1 <= n <= MAXORDINAL -> fits (ord2ymd n).
Proof.
  intros Hn. pose proof (ord2ymd_year n Hn) as Hy.
  pose proof (ord2ymd_valid n) as (Hm & Hd).
  pose proof (days_in_month_le (year (ord2ymd n)) (month (ord2ymd n))).
  unfold MINYEAR, MAXYEAR, fits in *. lia.
Qed.

End FormatFacts.

(** ** The clock *)

Module ClockFacts.
Import Py Datetime App Spec CalendarFacts FormatFacts.

Lemma new_datetime_ok y m d hh mm ss :
  MINYEAR <= y <= MAXYEAR -> 1 <= m <= 12 -> 1 <= d <= days_in_month y m ->
  0 <= hh <= 23 -> 0 <= mm <= 59 -> 0 <= ss <= 59 ->
  new_datetime y m d hh mm ss = Some (mkdatetime (mkdate y m d) hh mm ss).
Proof.
  intros. unfold new_datetime.
  repeat rewrite (proj2 (Z.leb_le _ _)) by lia. reflexivity.
Qed.

Lemma new_datetime_some y m d hh mm ss t :
  new_datetime y m d hh mm ss = Some t ->
  t = mkdatetime (mkdate y m d) hh mm ss
  /\ 0 <= hh <= 23 /\ 0 <= mm <= 59 /\ 0 <= ss <= 59.
Proof.
  unfold new_datetime. destruct (_ && _) eqn:E; [|discriminate].
  rewrite !andb_true_iff, !Z.leb_le in E. intros [= <-]. intuition lia.
Qed.

Lemma JST_eq : JST = mktimedelta 0 32400.
Proof. reflexivity. Qed.

Lemma date_eta d : mkdate (year d) (month d) (day d) = d.
Proof. now destruct d. Qed.

(** Under a valid clock [get_japan_time] succeeds, and gives the date and
    the time of day nine hours ahead of UTC. *)
Lemma get_japan_time_ok clock :
  valid_clock clock ->
  let s := (clock + 32400) mod 86400 in
  get_japan_time clock
  = Some (mkdatetime (ord2ymd (jst_ordinal clock))
                     (s / 3600) (s mod 3600 / 60) (s mod 60)).
Proof.
  intros Hc s. unfold valid_clock in Hc.
  unfold get_japan_time, fromtimestamp, gmtime. cbv beta iota zeta.
  set (o := EPOCH_ORDINAL + clock / 86400).
  set (sod := clock mod 86400).
  assert (Ho : 1 <= o <= MAXORDINAL).
  { unfold o, EPOCH_ORDINAL, MAXORDINAL. Z.div_mod_to_equations. lia. }
  assert (Hsod : 0 <= sod < 86400) by (apply Z.mod_pos_bound; lia).
  rewrite new_datetime_ok.
  - cbn [mbind option_bind]. rewrite date_eta.
    unfold datetime_add. rewrite JST_eq.
    cbn [date_of hour minute second].
    rewrite toordinal_ord2ymd.
    unfold timedelta_add, new_timedelta. cbn [days seconds].
    replace (sod / 3600 * 3600 + sod mod 3600 / 60 * 60 + Z.min (sod mod 60) 59)
      with sod by (Z.div_mod_to_equations; lia).
    replace (0 * 3600 + 0 * 60 + (sod mod 86400 + 32400)) with (sod + 32400)
      by (Z.div_mod_to_equations; lia).
    replace (o + sod / 86400 + 0 + (sod + 32400) / 86400) with (jst_ordinal clock)
      by (unfold jst_ordinal, o, sod; Z.div_mod_to_equations; lia).
    replace ((sod + 32400) mod 86400) with s
      by (unfold s, sod; Z.div_mod_to_equations; lia).
    assert (Hj : 1 <= jst_ordinal clock <= MAXORDINAL).
    { unfold jst_ordinal, EPOCH_ORDINAL, MAXORDINAL. Z.div_mod_to_equations. lia. }
    rewrite (proj2 (Z.ltb_lt _ _)) by lia.
    rewrite (proj2 (Z.leb_le _ _)) by lia. cbn [andb]. unfold fromordinal.
    do 2 f_equal. Z.div_mod_to_equations. lia.
  - apply ord2ymd_year, Ho.
  - apply ord2ymd_valid.
  - apply ord2ymd_valid.
  - Z.div_mod_to_equations. lia.
  - Z.div_mod_to_equations. lia.
  - Z.div_mod_to_equations. lia.
Qed.

Lemma jst_ordinal_range clock :
  valid_clock clock -> EPOCH_ORDINAL <= jst_ordinal clock <= MAXORDINAL.
Proof.
  unfold valid_clock, jst_ordinal, EPOCH_ORDINAL, MAXORDINAL. intros H.
  Z.div_mod_to_equations. lia.
Qed.

Lemma jst_today_ok clock :
  valid_clock clock -> jst_today clock = Some (ord2ymd (jst_ordinal clock)).
Proof.
  intros H. unfold jst_today. now rewrite (get_japan_time_ok clock H).
Qed.

End ClockFacts.

(** ** The two aggregation functions *)

Module AggregationFacts.
Import Py Datetime App Spec CalendarFacts FormatFacts ClockFacts.

Lemma contains_keys d k : contains d k = true <-> k ∈ keys d.
Proof.
  induction d as [|[k' v] d IH]; cbn.
  - split; [discriminate|]. intros H. by apply elem_of_nil in H.
  - rewrite elem_of_cons. case_bool_decide; subst.
    + split; auto.
    + rewrite IH. split; [auto|]. intros [?|?]; [congruence|done].
Qed.

Lemma setitem_fresh d k v : k ∉ keys d -> setitem d k v = d ++ [(k, v)].
Proof.
  induction d as [|[k' v'] d IH]; cbn; [done|].
  rewrite not_elem_of_cons. intros [Hne Hd].
  rewrite bool_decide_eq_false_2 by congruence. now rewrite IH.
Qed.

(** [weekly_data[k] += 1] on a present key adds one to that bucket and
    leaves the keys and their order alone. *)
Lemma increment_present d k :
  NoDup (keys d) -> contains d k = true ->
  exists n, getitem d k = Some n
    /\ setitem d k (n + 1)
       = List.map (fun '(k', v) => (k', v + if bool_decide (k' = k) then 1 else 0)) d.
Proof.
  induction d as [|[k' v] d IH]; cbn; [discriminate|].
  intros Hnd Hc. apply list.NoDup_cons in Hnd as [Hk' Hnd].
  case_bool_decide as Hk; subst.
  - exists v. split; [done|]. f_equal.
    rewrite <- (List.map_id d) at 1. apply List.map_ext_in.
    intros [k2 v2] Hin. rewrite bool_decide_eq_false_2; [f_equal; lia|].
    intros ->. apply Hk'. apply list_elem_of_In, List.in_map_iff.
    by exists (k, v2).
  - destruct (IH Hnd Hc) as (n & Hg & Hs). exists n. split; [done|].
    rewrite Hs. f_equal. f_equal. lia.
Qed.

Lemma increment_absent (d : dict) k :
  contains d k = false ->
  List.map (fun '(k', v) => (k', v + if bool_decide (k' = k) then 1 else 0)) d = d.
Proof.
  induction d as [|[k' v] d IH]; cbn; [done|].
  case_bool_decide; [discriminate|]. intros Hc. rewrite IH by done.
  f_equal. f_equal. lia.
Qed.

(** One round of the counting loop never raises; it adds the record to the
    bucket of its date when there is one. *)
Lemma count_record_ok d r :
  NoDup (keys d) -> [] ∉ keys d ->
  count_record d r = Some (List.map (fun '(k, v) => (k, v + hits k r)) d).
Proof.
  intros Hnd Hne. unfold count_record, get_default, hits, date_is, opt_eq_str, get.
  assert (Hempty : contains d [] = false).
  { destruct (contains d []) eqn:E; [|done]. by apply contains_keys in E. }
  destruct (r !! u "date") as [[s|n|m e]|];
    cbn [default from_option id value_in eq_str].
  - destruct (contains d s) eqn:E.
    + destruct (increment_present d s Hnd E) as (n & Hg & Hs).
      rewrite Hg. cbn [mbind option_bind]. rewrite Hs.
      f_equal. apply List.map_ext. intros [k v]. f_equal. f_equal.
      repeat case_bool_decide; congruence.
    + f_equal. rewrite <- (increment_absent d s E) at 1.
      apply List.map_ext. intros [k v]. f_equal. f_equal.
      repeat case_bool_decide; congruence.
  - f_equal. rewrite <- (List.map_id d) at 1.
    apply List.map_ext. intros [k v]. f_equal. lia.
  - f_equal. rewrite <- (List.map_id d) at 1.
    apply List.map_ext. intros [k v]. f_equal. lia.
  - change (u "") with (@nil Z). rewrite Hempty. f_equal.
    rewrite <- (List.map_id d) at 1.
    apply List.map_ext. intros [k v]. f_equal. lia.
Qed.

Lemma count_date_cons k r pee_data :
  count_date k (r :: pee_data) = hits k r + count_date k pee_data.
Proof.
  unfold count_date, hits, len. cbn [List.filter].
  destruct (date_is k r); cbn [length]; lia.
Qed.

Lemma count_date_nil k : count_date k [] = 0.
Proof. reflexivity. Qed.

Lemma keys_map_snd (f : list Z -> Z -> Z) (d : dict) :
  keys (List.map (fun '(k, v) => (k, f k v)) d) = keys d.
Proof.
  unfold keys. rewrite List.map_map. apply List.map_ext. by intros [k v].
Qed.

(** The counting loop never raises and counts each record in the bucket of
    its date. *)
Lemma counting_loop pee_data : forall d,
  NoDup (keys d) -> [] ∉ keys d ->
  for_each count_record pee_data d = Some (add_counts pee_data d).
Proof.
  induction pee_data as [|r pee_data IH]; intros d Hnd Hne; cbn [for_each].
  - f_equal. unfold add_counts. rewrite <- (List.map_id d) at 1.
    apply List.map_ext. intros [k v]. rewrite count_date_nil. f_equal. lia.
  - rewrite count_record_ok by done. cbn [mbind option_bind].
    rewrite IH.
    + f_equal. unfold add_counts. rewrite List.map_map.
      apply List.map_ext. intros [k v]. rewrite count_date_cons. f_equal. lia.
    + by rewrite (keys_map_snd (fun k v => v + hits k r)).
    + by rewrite (keys_map_snd (fun k v => v + hits k r)).
Qed.

Lemma days_new_timedelta i : days (new_timedelta i 0 0 0) = i.
Proof.
  unfold new_timedelta. cbn [days].
  change ((0 * 3600 + 0 * 60 + 0) / 86400) with 0. lia.
Qed.

(** Going back [i] days from day number [o]. *)
Lemma date_sub_days o i :
  1 <= o - i <= MAXORDINAL ->
  date_sub (ord2ymd o) (new_timedelta i 0 0 0) = Some (ord2ymd (o - i)).
Proof.
  intros H. unfold date_sub, date_add.
  rewrite !days_new_timedelta, toordinal_ord2ymd.
  replace (o + - i) with (o - i) by lia.
  rewrite (proj2 (Z.ltb_lt _ _)) by lia.
  rewrite (proj2 (Z.leb_le _ _)) by lia. reflexivity.
Qed.

Lemma range_week : range 6 (-1) (-1) = [6; 5; 4; 3; 2; 1; 0].
Proof. reflexivity. Qed.

(** The first loop, for any way [g] of getting the date of index [i]: when
    the dates give different keys it appends one zero bucket per date. *)
Lemma seed_loop (g : Z -> option date) idx ds : forall d : dict,
  Forall2 (fun i x => g i = Some x) idx ds ->
  NoDup (keys d ++ List.map strftime_Ymd ds) ->
  for_each (fun weekly_data i => x ← g i; Some (setitem weekly_data (strftime_Ymd x) 0))
           idx d
  = Some (d ++ List.map (fun x => (strftime_Ymd x, 0)) ds).
Proof.
  intros d H. revert d.
  induction H as [|i x idx ds Hg _ IH]; intros d Hnd; cbn [for_each List.map].
  - by rewrite app_nil_r.
  - rewrite Hg. cbn [mbind option_bind].
    apply list.NoDup_app in Hnd as (Hd & Hdis & Hds).
    apply list.NoDup_cons in Hds as [Hx Hds].
    rewrite setitem_fresh.
    + rewrite IH.
      * by rewrite <- app_assoc.
      * unfold keys. rewrite List.map_app. cbn [List.map fst].
        apply list.NoDup_app. split_and!.
        -- apply list.NoDup_app. split_and!; [done| |apply list.NoDup_singleton].
           intros k Hk Hin. apply list_elem_of_singleton in Hin as ->.
           apply (Hdis _ Hk). left.
        -- intros k Hk Hin. apply elem_of_app in Hk as [Hk|Hk].
           ++ apply (Hdis _ Hk). by right.
           ++ apply list_elem_of_singleton in Hk as ->. by apply Hx.
        -- done.
    + intros Hin. apply (Hdis _ Hin). left.
Qed.

Lemma week_fits o : 7 <= o <= MAXORDINAL -> Forall fits (week o).
Proof.
  intros Ho. unfold week. cbn [List.map].
  repeat (constructor; [apply ord2ymd_fits; unfold MAXORDINAL in *; lia|]).
  constructor.
Qed.

(** The seven dates of a week give seven different keys. *)
Lemma week_keys_NoDup o :
  7 <= o <= MAXORDINAL -> NoDup (List.map strftime_Ymd (week o)).
Proof.
  intros Ho. unfold week. rewrite List.map_map.
  apply (NoDup_fmap_2_strong (fun i => strftime_Ymd (ord2ymd (o - i)))).
  - intros i j Hi Hj Heq.
    assert (0 <= i <= 6 /\ 0 <= j <= 6) as [Hi' Hj'].
    { split; [clear Hj; revert Hi|clear Hi; revert Hj];
        rewrite !elem_of_cons, elem_of_nil; lia. }
    apply strftime_Ymd_inj in Heq; [|apply ord2ymd_fits; lia..].
    apply ord2ymd_inj in Heq. lia.
  - repeat (apply NoDup_cons_2; [rewrite ?elem_of_cons, elem_of_nil; lia|]).
    apply NoDup_nil_2.
Qed.

(** [get_weekly_pee_data] once [get_japan_time] has returned. *)
Lemma get_weekly_pee_data_unfold pee_data clock now today :
  get_japan_time clock = Some now -> date_of now = today ->
  get_weekly_pee_data pee_data clock
  = (weekly_data ←
       for_each
         (fun weekly_data i =>
            d ← date_sub today (new_timedelta i 0 0 0);
            Some (setitem weekly_data (strftime_Ymd d) 0))
         (range 6 (-1) (-1)) [];
     for_each count_record pee_data weekly_data).
Proof.
  intros Hnow <-. unfold get_weekly_pee_data. rewrite Hnow. reflexivity.
Qed.

Lemma bind_Some {A B} (x : A) (f : A -> option B) : (Some x ≫= f) = f x.
Proof. reflexivity. Qed.

Lemma week_dates o :
  7 <= o <= MAXORDINAL ->
  Forall2 (fun i x => date_sub (ord2ymd o) (new_timedelta i 0 0 0) = Some x)
          [6; 5; 4; 3; 2; 1; 0] (week o).
Proof.
  intros Ho. unfold week. cbn [List.map].
  repeat (constructor; [apply date_sub_days; unfold MAXORDINAL in *; lia|]).
  constructor.
Qed.

Lemma empty_not_key o :
  7 <= o <= MAXORDINAL -> [] ∉ List.map strftime_Ymd (week o).
Proof.
  intros Ho Hin. apply list_elem_of_fmap in Hin as (x & Hx & Hin).
  pose proof (week_fits o Ho) as Hf.
  rewrite list.Forall_forall in Hf. specialize (Hf _ Hin).
  apply strftime_Ymd_length in Hf. rewrite <- Hx in Hf. discriminate.
Qed.

Lemma seeded_keys (ds : list date) :
  keys (List.map (fun x => (strftime_Ymd x, 0)) ds) = List.map strftime_Ymd ds.
Proof. unfold keys. rewrite List.map_map. reflexivity. Qed.

Lemma add_counts_seeded pee_data (ds : list date) :
  add_counts pee_data (List.map (fun x => (strftime_Ymd x, 0)) ds)
  = List.map (bucket pee_data) ds.
Proof.
  unfold add_counts. rewrite List.map_map. apply List.map_ext.
  intros x. unfold bucket. apply f_equal. apply Z.add_0_l.
Qed.

(** [get_weekly_pee_data] when the clock reads a time of day number [o]:
    no exception, and the buckets of the seven dates that end on [o]. *)
Lemma weekly_of_today pee_data clock o :
  7 <= o <= MAXORDINAL -> jst_today clock = Some (ord2ymd o) ->
  get_weekly_pee_data pee_data clock = Some (List.map (bucket pee_data) (week o)).
Proof.
  intros Ho Htoday. unfold jst_today in Htoday.
  destruct (get_japan_time clock) as [now|] eqn:Hnow; [|discriminate].
  injection Htoday as Htoday.
  rewrite (get_weekly_pee_data_unfold _ _ _ (ord2ymd o) Hnow Htoday).
  rewrite range_week.
  rewrite (seed_loop _ _ _ [] (week_dates _ Ho) (week_keys_NoDup _ Ho)).
  rewrite bind_Some, app_nil_l.
  rewrite counting_loop.
  - rewrite add_counts_seeded. reflexivity.
  - rewrite seeded_keys. apply week_keys_NoDup, Ho.
  - rewrite seeded_keys. apply empty_not_key, Ho.
Qed.

Lemma jst_ordinal_week clock :
  valid_clock clock -> 7 <= jst_ordinal clock <= MAXORDINAL.
Proof.
  intros Hc. pose proof (jst_ordinal_range clock Hc) as Ho.
  unfold EPOCH_ORDINAL in Ho. lia.
Qed.

(** [get_weekly_pee_data] under a valid clock. *)
Lemma weekly_ok pee_data clock :
  valid_clock clock ->
  get_weekly_pee_data pee_data clock
  = Some (List.map (bucket pee_data) (week (jst_ordinal clock))).
Proof.
  intros Hc. apply weekly_of_today; [by apply jst_ordinal_week|by apply jst_today_ok].
Qed.

Lemma get_weekly_pee_data_none pee_data clock :
  get_japan_time clock = None -> get_weekly_pee_data pee_data clock = None.
Proof. intros H. unfold get_weekly_pee_data. rewrite H. reflexivity. Qed.

(** [get_today_pee_count] once [get_japan_time] has returned. *)
Lemma get_today_pee_count_unfold pee_data clock now today :
  get_japan_time clock = Some now -> date_of now = today ->
  get_today_pee_count pee_data clock
  = Some (count_date (strftime_Ymd today) pee_data).
Proof.
  intros Hnow <-. unfold get_today_pee_count. rewrite Hnow. reflexivity.
Qed.

Lemma get_today_pee_count_none pee_data clock :
  get_japan_time clock = None -> get_today_pee_count pee_data clock = None.
Proof. intros H. unfold get_today_pee_count. rewrite H. reflexivity. Qed.

Lemma today_of clock (today : date) :
  jst_today clock = Some today ->
  exists now, get_japan_time clock = Some now /\ date_of now = today.
Proof.
  unfold jst_today. destruct (get_japan_time clock) as [now|]; [|discriminate].
  intros [= <-]. eauto.
Qed.

Lemma today_count_of_today pee_data clock today :
  jst_today clock = Some today ->
  get_today_pee_count pee_data clock
  = Some (count_date (strftime_Ymd today) pee_data).
Proof.
  intros H. apply today_of in H as (now & Hnow & Hd).
  by apply (get_today_pee_count_unfold _ _ now).
Qed.


Lemma map_week {A} (f : date -> A) o :
  List.map f (week o)
  = [f (ord2ymd (o - 6)); f (ord2ymd (o - 5)); f (ord2ymd (o - 4));
     f (ord2ymd (o - 3)); f (ord2ymd (o - 2)); f (ord2ymd (o - 1));
     f (ord2ymd (o - 0))].
Proof. reflexivity. Qed.

(** *** Sums of buckets *)

Lemma fold_left_add xs : forall a, fold_left Z.add xs a = a + fold_left Z.add xs 0.
Proof.
  induction xs as [|x xs IH]; intros a; cbn [fold_left]; [lia|].
  rewrite (IH (a + x)), (IH (0 + x)). lia.
Qed.

Lemma sum_cons x xs : sum (x :: xs) = x + sum xs.
Proof. unfold sum. cbn [fold_left]. rewrite fold_left_add. lia. Qed.

Lemma sum_nil : sum [] = 0.
Proof. reflexivity. Qed.

Lemma sum_map_add {A} (f g : A -> Z) l :
  sum (List.map (fun x => f x + g x) l) = sum (List.map f l) + sum (List.map g l).
Proof.
  induction l as [|x l IH]; [done|]. cbn [List.map]. rewrite !sum_cons, IH. lia.
Qed.

Lemma sum_map_zero {A} (l : list A) : sum (List.map (fun _ => 0) l) = 0.
Proof. induction l as [|x l IH]; [done|]. cbn [List.map]. now rewrite sum_cons, IH. Qed.

Lemma date_is_inj k k' r : date_is k r = true -> date_is k' r = true -> k = k'.
Proof.
  unfold date_is, opt_eq_str, eq_str, get.
  destruct (r !! u "date") as [[s|n|m e]|]; try discriminate.
  intros H1 H2. apply bool_decide_eq_true in H1, H2. congruence.
Qed.

Lemma in_window_cons k (ks : list (list Z)) r :
  in_window (k :: ks) r = date_is k r || in_window ks r.
Proof. reflexivity. Qed.



(** A record is counted in the bucket of its date and in no other. *)
Lemma hits_sum (ks : list (list Z)) r :
  NoDup ks ->
  sum (List.map (fun k => hits k r) ks) = if in_window ks r then 1 else 0.
Proof.
  induction ks as [|k ks IH]; intros Hnd; [done|].
  apply list.NoDup_cons in Hnd as [Hk Hnd].
  cbn [List.map]. rewrite sum_cons, in_window_cons, IH by done.
  unfold hits. destruct (date_is k r) eqn:E; cbn [orb]; [|lia].
  destruct (in_window ks r) eqn:W; [|lia].
  exfalso. apply Hk. unfold in_window in W. apply List.existsb_exists in W as (k' & Hk' & E').
  rewrite (date_is_inj _ _ _ E E'). by apply list_elem_of_In.
Qed.

(** The buckets of different keys add up to the number of records whose date
    is one of the keys. *)
Lemma window_total (ks : list (list Z)) pee_data :
  NoDup ks ->
  sum (List.map (fun k => count_date k pee_data) ks)
  = len (List.filter (in_window ks) pee_data).
Proof.
  intros Hnd. induction pee_data as [|r l IH].
  - apply sum_map_zero.
  - rewrite (List.map_ext _ (fun k => hits k r + count_date k l))
      by (intros; apply count_date_cons).
    rewrite sum_map_add, IH, hits_sum by done.
    unfold len. cbn [List.filter]. destruct (in_window ks r); cbn [length]; lia.
Qed.

End AggregationFacts.

(** ** Parsing a time and formatting it *)

Module FormatTimeFacts.
Import Py Datetime App Spec CalendarFacts FormatFacts ClockFacts.

Lemma in_bind {A B} (p : matcher A) (f : A -> matcher B) s x :
  In x (bind p f s) <-> exists a r, In (a, r) (p s) /\ In x (f a r).
Proof.
  unfold bind. rewrite List.in_concat. split.
  - intros (l & Hl & Hx). apply List.in_map_iff in Hl as ([a r] & <- & Har).
    eauto.
  - intros (a & r & Har & Hx). exists (f a r). split; [|done].
    apply List.in_map_iff. by exists (a, r).
Qed.

Lemma in_alt {A} (p q : matcher A) s x :
  In x (alt p q s) <-> In x (p s) \/ In x (q s).
Proof. unfold alt. apply List.in_app_iff. Qed.

Lemma in_lit c s a r : In (a, r) (lit c s) -> a = [c] /\ s = c :: r.
Proof.
  destruct s as [|c' s]; cbn; [tauto|].
  destruct (Z.eqb_spec c' c); cbn; [|tauto]. intros [[= <- <-]|[]]. by subst.
Qed.

Lemma one_char_lit c : one_char (lit c).
Proof. intros s a r H. apply in_lit in H as [-> ->]. eauto. Qed.

Lemma one_char_cls lo hi : one_char (cls lo hi).
Proof.
  intros [|c' s] a r; cbn; [tauto|].
  destruct (_ && _); cbn; [|tauto]. intros [[= <- <-]|[]]. eauto.
Qed.

Lemma one_char_digit decimal : one_char (digit decimal).
Proof.
  intros [|c' s] a r; cbn; [tauto|].
  destruct (decimal c'); cbn; [|tauto]. intros [[= <- <-]|[]]. eauto.
Qed.

Lemma in_cat p q s a r :
  one_char p -> one_char q -> In (a, r) (cat p q s) ->
  exists c1 c2, a = [c1; c2] /\ s = c1 :: c2 :: r.
Proof.
  intros Hp Hq. unfold cat. rewrite in_bind.
  intros (a1 & r1 & H1 & H). apply in_bind in H as (a2 & r2 & H2 & H).
  destruct H as [[= <- <-]|[]].
  apply Hp in H1 as (c1 & -> & ->). apply Hq in H2 as (c2 & -> & ->). eauto.
Qed.

(** Every alternative of the hour group takes one or two characters. *)
Lemma in_re_H decimal s a r :
  In (a, r) (re_H decimal s) ->
  (exists c, s = c :: r) \/ (exists c1 c2, s = c1 :: c2 :: r).
Proof.
  unfold re_H. rewrite !in_alt. intros [H|[H|H]].
  - apply in_cat in H as (c1 & c2 & _ & ->);
      eauto using one_char_lit, one_char_cls.
  - apply in_cat in H as (c1 & c2 & _ & ->);
      eauto using one_char_digit, one_char_cls.
  - apply one_char_digit in H as (c & _ & ->). eauto.
Qed.

Lemma head_In {A} (l : list A) x : head l = Some x -> In x l.
Proof. destruct l; cbn; [discriminate|]. intros [= ->]. by left. Qed.

(** A string that matches has its first colon second or third. *)
Lemma match_HMS_colon decimal s g :
  match_HMS decimal s = Some g -> s !! 1%nat = Some 58 \/ s !! 2%nat = Some 58.
Proof.
  unfold match_HMS. intros H. apply head_In in H. unfold re_HMS in H.
  apply in_bind in H as (h & r1 & Hh & H).
  apply in_bind in H as (x & r2 & Hc & _).
  apply in_lit in Hc as [_ ->].
  apply in_re_H in Hh as [(c & ->)|(c1 & c2 & ->)]; [by left|by right].
Qed.

Lemma strptime_HMS_colon decimal s t :
  strptime_HMS decimal s = Some t -> s !! 1%nat = Some 58 \/ s !! 2%nat = Some 58.
Proof.
  unfold strptime_HMS. destruct (match_HMS decimal s) as [g|] eqn:E; [|discriminate].
  intros _. eapply match_HMS_colon, E.
Qed.

(** What [strptime] returns has passed the checks of the constructor. *)
Lemma strptime_HMS_fields decimal s t :
  strptime_HMS decimal s = Some t ->
  date_of t = mkdate 1900 1 1
  /\ 0 <= hour t <= 23 /\ 0 <= minute t <= 59 /\ 0 <= second t <= 59.
Proof.
  unfold strptime_HMS.
  destruct (match_HMS decimal s) as [[[[h m] sec] rest]|]; [|discriminate].
  cbn [mbind option_bind]. destruct (negb _); [discriminate|].
  destruct (int decimal h) as [hh|]; [|discriminate].
  destruct (int decimal m) as [mm|]; [|discriminate].
  destruct (int decimal sec) as [ss|]; [|discriminate].
  cbn [mbind option_bind]. intros H.
  apply new_datetime_some in H as (-> & ? & ? & ?). cbn. auto.
Qed.

(** The two formats of the label, on an hour and a minute in range. *)
Lemma label_formats h m :
  0 <= h <= 23 -> 0 <= m <= 59 ->
  format_d h ++ u "時" ++ format_0d 2 m ++ u "分" = time_label h m.
Proof.
  intros Hh Hm. unfold time_label.
  rewrite format_d_small by lia. rewrite format_0d_2 by lia. reflexivity.
Qed.

Lemma format_time_simple_parsed decimal s t :
  strptime_HMS decimal s = Some t ->
  format_time_simple decimal s = time_label (hour t) (minute t).
Proof.
  intros H. unfold format_time_simple. rewrite H.
  apply strptime_HMS_fields in H as (_ & Hh & Hm & _).
  cbv zeta. now apply label_formats.
Qed.

Lemma format_time_simple_failed decimal s :
  strptime_HMS decimal s = None -> format_time_simple decimal s = s.
Proof. intros H. unfold format_time_simple. now rewrite H. Qed.

(** A label never parses: where a colon should be it has a digit or [時]. *)
Lemma time_label_no_parse decimal h m :
  0 <= h <= 23 -> 0 <= m <= 59 -> strptime_HMS decimal (time_label h m) = None.
Proof.
  intros Hh Hm. destruct (strptime_HMS decimal (time_label h m)) as [t|] eqn:E; [|done].
  apply strptime_HMS_colon in E. exfalso. unfold time_label, digits2 in E.
  change (u "時") with [26178] in E.
  destruct (h <? 10); cbn in E; destruct E as [[= E]|[= E]];
    Z.div_mod_to_equations; lia.
Qed.

(** The parser looks at the digit table only through its values. *)
Lemma bind_ext {A B} (p1 p2 : matcher A) (f1 f2 : A -> matcher B) :
  (forall s, p1 s = p2 s) -> (forall a s, f1 a s = f2 a s) ->
  forall s, bind p1 f1 s = bind p2 f2 s.
Proof.
  intros Hp Hf s. unfold bind. rewrite Hp. f_equal.
  apply List.map_ext. intros [a r]. apply Hf.
Qed.

Lemma alt_ext {A} (p1 p2 q1 q2 : matcher A) :
  (forall s, p1 s = p2 s) -> (forall s, q1 s = q2 s) ->
  forall s, alt p1 q1 s = alt p2 q2 s.
Proof. intros Hp Hq s. unfold alt. now rewrite Hp, Hq. Qed.

Lemma cat_ext p1 p2 q1 q2 :
  (forall s, p1 s = p2 s) -> (forall s, q1 s = q2 s) ->
  forall s, cat p1 q1 s = cat p2 q2 s.
Proof.
  intros Hp Hq. unfold cat. apply bind_ext; [done|].
  intros a. apply bind_ext; [done|]. reflexivity.
Qed.

Section TableExt.

Variables d1 d2 : Z -> option Z.
Hypothesis same : forall c, d1 c = d2 c.

Lemma digit_ext s : digit d1 s = digit d2 s.
Proof. destruct s as [|c s]; cbn; [done|]. now rewrite same. Qed.

Lemma re_H_ext s : re_H d1 s = re_H d2 s.
Proof.
  unfold re_H. apply alt_ext; [done|].
  apply alt_ext; [|apply digit_ext]. apply cat_ext; [done|apply digit_ext].
Qed.

Lemma re_M_ext s : re_M d1 s = re_M d2 s.
Proof.
  unfold re_M. apply alt_ext; [|apply digit_ext].
  apply cat_ext; [done|apply digit_ext].
Qed.

Lemma re_S_ext s : re_S d1 s = re_S d2 s.
Proof.
  unfold re_S. apply alt_ext; [done|].
  apply alt_ext; [|apply digit_ext]. apply cat_ext; [done|apply digit_ext].
Qed.

Lemma re_HMS_ext s : re_HMS d1 s = re_HMS d2 s.
Proof.
  unfold re_HMS. apply bind_ext; [apply re_H_ext|]. intros h.
  apply bind_ext; [done|]. intros _.
  apply bind_ext; [apply re_M_ext|]. intros m.
  apply bind_ext; [done|]. intros _.
  apply bind_ext; [apply re_S_ext|]. reflexivity.
Qed.

Lemma int_ext s : int d1 s = int d2 s.
Proof.
  unfold int. destruct s as [|c s]; [done|].
  generalize (c :: s) as l. generalize (Some 0) as acc.
  intros acc l. revert acc. induction l as [|x l IH]; intros acc; cbn; [done|].
  rewrite same. apply IH.
Qed.

Lemma strptime_HMS_ext s : strptime_HMS d1 s = strptime_HMS d2 s.
Proof.
  unfold strptime_HMS, match_HMS. rewrite re_HMS_ext.
  destruct (head (re_HMS d2 s)) as [[[[h m] sec] rest]|]; [|done].
  cbn [mbind option_bind]. now rewrite !int_ext.
Qed.

End TableExt.

Lemma mix_same decimal : ascii_digits decimal -> forall c, decimal c = mix decimal c.
Proof.
  intros H c. unfold mix. destruct (Z.ltb_spec c 128); [by apply H|done].
Qed.

(** Every second of the day, written [HH:MM:SS], parses to its fields. *)
Lemma canonical_checked decimal :
  all_from (canonical_check decimal) (Z.to_nat 86400) 0 = true.
Proof. vm_cast_no_check (eq_refl true). Qed.

Lemma strptime_HMS_canonical decimal h m sec :
  ascii_digits decimal -> 0 <= h < 24 -> 0 <= m < 60 -> 0 <= sec < 60 ->
  strptime_HMS decimal (hms_string h m sec)
  = Some (mkdatetime (mkdate 1900 1 1) h m sec).
Proof.
  intros Ha Hh Hm Hs.
  rewrite (strptime_HMS_ext _ _ (mix_same decimal Ha)).
  pose proof (all_from_spec _ _ _ (h * 3600 + m * 60 + sec)
                (canonical_checked decimal) ltac:(lia)) as H.
  unfold canonical_check in H. cbv zeta in H.
  replace ((h * 3600 + m * 60 + sec) / 3600) with h in H
    by (Z.div_mod_to_equations; lia).
  replace ((h * 3600 + m * 60 + sec) mod 3600 / 60) with m in H
    by (Z.div_mod_to_equations; lia).
  replace ((h * 3600 + m * 60 + sec) mod 60) with sec in H
    by (Z.div_mod_to_equations; lia).
  destruct (strptime_HMS (mix decimal) (hms_string h m sec)) as [[d hh mm ss]|];
    [|discriminate].
  cbn [date_of hour minute second] in H.
  rewrite !andb_true_iff, !Z.eqb_eq in H. destruct H as [[[Hd ->] ->] ->].
  apply date_eqb_eq in Hd. now subst.
Qed.

End FormatTimeFacts.

(** ** Properties of the aggregation functions *)

Module Aggregation.
Import Py Datetime App Spec CalendarFacts FormatFacts ClockFacts AggregationFacts.

Lemma week_length o : length (week o) = 7%nat.
Proof. reflexivity. Qed.




Lemma keys_buckets pee_data ds :
  keys (List.map (bucket pee_data) ds) = List.map strftime_Ymd ds.
Proof. unfold keys. rewrite List.map_map. reflexivity. Qed.

Lemma values_buckets pee_data ds :
  values (List.map (bucket pee_data) ds)
  = List.map (fun d => count_date (strftime_Ymd d) pee_data) ds.
Proof. unfold values. rewrite List.map_map. reflexivity. Qed.







(** C3. [get_today_pee_count] returns the number of records whose [date]
    field is the string [YYYY-MM-DD] of today, today being the calendar date
    of the clock reading at UTC+9; nothing else of the list is looked at. *)
Theorem today_count_filters_today (pee_data : list record) (clock : Z) :
  valid_clock clock ->
  exists today,
    jst_today clock = Some today
    /\ toordinal today = EPOCH_ORDINAL + (clock + 9 * 3600) / 86400
    /\ strftime_Ymd today
       = digits4 (year today) ++ u "-" ++ digits2 (month today) ++ u "-"
         ++ digits2 (day today)
    /\ get_today_pee_count pee_data clock
       = Some (len (List.filter
                      (fun r : record =>
                         bool_decide (r !! u "date" = Some (VStr (strftime_Ymd today))))
                      pee_data)).
Proof.
  intros Hc. pose proof (jst_ordinal_week clock Hc) as Ho.
  exists (ord2ymd (jst_ordinal clock)). split_and!.
  - by apply jst_today_ok.
  - apply toordinal_ord2ymd.
  - apply strftime_Ymd_digits, ord2ymd_fits. lia.
  - rewrite (today_count_of_today _ _ _ (jst_today_ok _ Hc)).
    unfold count_date. do 2 f_equal. apply List.filter_ext. intros r.
    unfold date_is, opt_eq_str, eq_str, get.
    destruct (r !! u "date") as [[s|n|m e]|];
      repeat case_bool_decide; congruence.
Qed.

Lemma today_count_filters_today_witness :
  exists today,
    jst_today 1717945200 = Some today
    /\ toordinal today = EPOCH_ORDINAL + (1717945200 + 9 * 3600) / 86400
    /\ strftime_Ymd today
       = digits4 (year today) ++ u "-" ++ digits2 (month today) ++ u "-"
         ++ digits2 (day today)
    /\ get_today_pee_count example_records 1717945200
       = Some (len (List.filter
                      (fun r : record =>
                         bool_decide (r !! u "date" = Some (VStr (strftime_Ymd today))))
                      example_records)).
Proof.
  apply (today_count_filters_today example_records 1717945200).
  unfold valid_clock. lia.
Defined.

Lemma weekly_statistics_unfold pee_data clock weekly_data :
  get_weekly_pee_data pee_data clock = Some weekly_data ->
  weekly_statistics pee_data clock
  = Some (sum (values weekly_data), (inject_Z (sum (values weekly_data)) / 7)%Q).
Proof. intros H. unfold weekly_statistics. rewrite H. reflexivity. Qed.




Lemma last_week {A} (f : date -> A) o :
  list.last (List.map f (week o)) = Some (f (ord2ymd o)).
Proof. rewrite map_week, Z.sub_0_r. reflexivity. Qed.

(** C10. For one reading of the clock, the count of today is the count of
    the newest bucket of the weekly series, whose key is today. *)
Theorem today_count_is_newest_bucket (pee_data : list record) (clock : Z) :
  valid_clock clock ->
  exists today weekly_data n,
    jst_today clock = Some today
    /\ get_weekly_pee_data pee_data clock = Some weekly_data
    /\ list.last weekly_data = Some (strftime_Ymd today, n)
    /\ get_today_pee_count pee_data clock = Some n.
Proof.
  intros Hc.
  exists (ord2ymd (jst_ordinal clock)),
    (List.map (bucket pee_data) (week (jst_ordinal clock))),
    (count_date (strftime_Ymd (ord2ymd (jst_ordinal clock))) pee_data).
  split_and!.
  - by apply jst_today_ok.
  - by apply weekly_ok.
  - apply last_week.
  - apply today_count_of_today. by apply jst_today_ok.
Qed.

Lemma today_count_is_newest_bucket_witness :
  exists today weekly_data n,
    jst_today 1717945200 = Some today
    /\ get_weekly_pee_data example_records 1717945200 = Some weekly_data
    /\ list.last weekly_data = Some (strftime_Ymd today, n)
    /\ get_today_pee_count example_records 1717945200 = Some n.
Proof.
  apply (today_count_is_newest_bucket example_records 1717945200). unfold valid_clock. lia.
Defined.

(** C8, as the code has it. The two functions are given the record list
    only and read the clock themselves, through [get_japan_time]; what they
    return is decided by the record list and the UTC+9 date of that reading:
    two runs on the same list whose readings fall on the same date return
    the same, whatever the time of day. *)
Theorem same_date_same_outputs (pee_data : list record) (clock1 clock2 : Z) :
  jst_today clock1 = jst_today clock2 ->
  get_today_pee_count pee_data clock1 = get_today_pee_count pee_data clock2
  /\ get_weekly_pee_data pee_data clock1 = get_weekly_pee_data pee_data clock2.
Proof.
  unfold jst_today.
  destruct (get_japan_time clock1) as [now1|] eqn:H1;
    destruct (get_japan_time clock2) as [now2|] eqn:H2;
    cbn [fmap option_fmap option_map]; try discriminate.
  - intros [= Hd]. split.
    + rewrite (get_today_pee_count_unfold _ _ _ _ H1 Hd).
      now rewrite (get_today_pee_count_unfold _ _ _ _ H2 eq_refl).
    + rewrite (get_weekly_pee_data_unfold _ _ _ _ H1 Hd).
      now rewrite (get_weekly_pee_data_unfold _ _ _ _ H2 eq_refl).
  - intros _. split.
    + now rewrite !get_today_pee_count_none.
    + now rewrite !get_weekly_pee_data_none.
Qed.

(** The first and the last second of 2024-06-10 in Japan. *)
Lemma same_date_same_outputs_witness :
  get_today_pee_count example_records 1717945200
  = get_today_pee_count example_records 1718031599
  /\ get_weekly_pee_data example_records 1717945200
     = get_weekly_pee_data example_records 1718031599.
Proof.
  apply (same_date_same_outputs example_records 1717945200 1718031599). reflexivity.
Defined.

(** C8, as stated, fails: the record list does not decide the outputs. One
    record dated 2024-06-10 is counted today when the clock reads the first
    second of that day in Japan and is not one day later, and the weekly
    series differ as well. *)
Lemma outputs_vary_with_clock :
  get_today_pee_count [dated (u "2024-06-10")] 1717945200 = Some 1
  /\ get_today_pee_count [dated (u "2024-06-10")] (1717945200 + 86400) = Some 0
  /\ get_weekly_pee_data [dated (u "2024-06-10")] 1717945200
     <> get_weekly_pee_data [dated (u "2024-06-10")] (1717945200 + 86400).
Proof.
  split_and!.
  - vm_compute. reflexivity.
  - vm_compute. reflexivity.
  - vm_compute. discriminate.
Qed.




End Aggregation.

(** ** Properties of [format_time_simple] *)

Module Formatting.
Import Py Datetime App Spec FormatFacts ClockFacts FormatTimeFacts.

(** C5. A string that [strptime] accepts for [%H:%M:%S] is turned into the
    hour as it is, [時], the minute in two digits and [分]; every time of
    day written [HH:MM:SS] is accepted and gives the label of its hour and
    minute, so ["16:10:00"] gives ["16時10分"] and ["09:05:00"] gives
    ["9時05分"]. *)
Theorem format_time_simple_label (decimal : Z -> option Z) :
  ascii_digits decimal ->
  (forall s t,
      strptime_HMS decimal s = Some t ->
      format_time_simple decimal s = time_label (hour t) (minute t)
      /\ 0 <= hour t <= 23 /\ 0 <= minute t <= 59)
  /\ (forall h m sec,
        0 <= h < 24 -> 0 <= m < 60 -> 0 <= sec < 60 ->
        format_time_simple decimal (hms_string h m sec) = time_label h m)
  /\ format_time_simple decimal (u "16:10:00") = u "16時10分"
  /\ format_time_simple decimal (u "09:05:00") = u "9時05分".
Proof.
  intros Ha.
  assert (Hcanon : forall h m sec,
             0 <= h < 24 -> 0 <= m < 60 -> 0 <= sec < 60 ->
             format_time_simple decimal (hms_string h m sec) = time_label h m).
  { intros h m sec Hh Hm Hs.
    now rewrite (format_time_simple_parsed _ _ _
                   (strptime_HMS_canonical decimal h m sec Ha Hh Hm Hs)). }
  split_and!.
  - intros s t H. split; [by apply format_time_simple_parsed|].
    apply strptime_HMS_fields in H. tauto.
  - exact Hcanon.
  - apply (Hcanon 16 10 0); lia.
  - apply (Hcanon 9 5 0); lia.
Qed.

Lemma format_time_simple_label_witness :
  (forall s t,
      strptime_HMS ascii_decimal s = Some t ->
      format_time_simple ascii_decimal s = time_label (hour t) (minute t)
      /\ 0 <= hour t <= 23 /\ 0 <= minute t <= 59)
  /\ (forall h m sec,
        0 <= h < 24 -> 0 <= m < 60 -> 0 <= sec < 60 ->
        format_time_simple ascii_decimal (hms_string h m sec) = time_label h m)
  /\ format_time_simple ascii_decimal (u "16:10:00") = u "16時10分"
  /\ format_time_simple ascii_decimal (u "09:05:00") = u "9時05分".
Proof.
  apply (format_time_simple_label ascii_decimal). intros c _. reflexivity.
Defined.

Lemma format_time_simple_ascii decimal s :
  ascii_digits decimal ->
  format_time_simple decimal s = format_time_simple (mix decimal) s.
Proof.
  intros Ha. unfold format_time_simple.
  now rewrite (strptime_HMS_ext _ _ (mix_same decimal Ha)).
Qed.

(** C6. A string that [strptime] rejects comes back as it is, the
    exception being caught; formatting it again changes nothing. So do
    ["not-a-time"], an hour of 24 and a second of 60. *)
Theorem format_time_simple_fallback (decimal : Z -> option Z) :
  ascii_digits decimal ->
  (forall s,
      strptime_HMS decimal s = None ->
      format_time_simple decimal s = s
      /\ format_time_simple decimal (format_time_simple decimal s)
         = format_time_simple decimal s)
  /\ format_time_simple decimal (u "not-a-time") = u "not-a-time"
  /\ format_time_simple decimal (u "24:00:00") = u "24:00:00"
  /\ format_time_simple decimal (u "16:10:60") = u "16:10:60".
Proof.
  intros Ha. split_and!.
  - intros s H. rewrite !(format_time_simple_failed _ _ H). done.
  - rewrite (format_time_simple_ascii _ _ Ha). vm_compute. reflexivity.
  - rewrite (format_time_simple_ascii _ _ Ha). vm_compute. reflexivity.
  - rewrite (format_time_simple_ascii _ _ Ha). vm_compute. reflexivity.
Qed.

Lemma format_time_simple_fallback_witness :
  (forall s,
      strptime_HMS ascii_decimal s = None ->
      format_time_simple ascii_decimal s = s
      /\ format_time_simple ascii_decimal (format_time_simple ascii_decimal s)
         = format_time_simple ascii_decimal s)
  /\ format_time_simple ascii_decimal (u "not-a-time") = u "not-a-time"
  /\ format_time_simple ascii_decimal (u "24:00:00") = u "24:00:00"
  /\ format_time_simple ascii_decimal (u "16:10:60") = u "16:10:60".
Proof.
  apply (format_time_simple_fallback ascii_decimal). intros c _. reflexivity.
Defined.

(** C9. [format_time_simple] is idempotent on every string, whatever the
    digit table: a string that does not parse is returned as it is, and the
    label of one that parses does not parse. *)
Theorem format_time_simple_idempotent (decimal : Z -> option Z) (s : list Z) :
  format_time_simple decimal (format_time_simple decimal s)
  = format_time_simple decimal s.
Proof.
  destruct (strptime_HMS decimal s) as [t|] eqn:E.
  - rewrite (format_time_simple_parsed _ _ _ E).
    apply strptime_HMS_fields in E as (_ & Hh & Hm & _).
    apply format_time_simple_failed, time_label_no_parse; lia.
  - now rewrite !(format_time_simple_failed _ _ E).
Qed.

(** [strptime] also accepts fields of one digit. *)
Lemma format_time_simple_one_digit decimal :
  ascii_digits decimal -> format_time_simple decimal (u "9:5:3") = u "9時05分".
Proof.
  intros Ha. rewrite (format_time_simple_ascii _ _ Ha). vm_compute. reflexivity.
Qed.

End Formatting.

(** ** The clock seen from Japan *)

Module JapanTime.
Import Py Datetime App Spec CalendarFacts FormatFacts ClockFacts.

(** X8. The date of [get_japan_time] is the UTC date of the reading until
    15:00 UTC and the day after from then on, and its hour is the UTC hour
    plus nine, modulo 24. *)
Theorem japan_date_turns_at_15_utc (clock : Z) :
  valid_clock clock ->
  exists now,
    get_japan_time clock = Some now
    /\ date_of now
       = (if clock mod 86400 <? 15 * 3600 then fst (gmtime clock)
          else next_day (fst (gmtime clock)))
    /\ hour now = (clock mod 86400 / 3600 + 9) mod 24
    /\ minute now = clock mod 3600 / 60
    /\ second now = clock mod 60.
Proof.
  intros Hc. pose proof (get_japan_time_ok clock Hc) as Hnow. cbv zeta in Hnow.
  eexists. split; [exact Hnow|]. cbn [date_of hour minute second].
  unfold gmtime. cbn [fst]. unfold jst_ordinal. split_and!.
  - destruct (Z.ltb_spec (clock mod 86400) (15 * 3600)) as [Hlt|Hge].
    + f_equal. Z.div_mod_to_equations. lia.
    + rewrite <- ord2ymd_succ. f_equal. Z.div_mod_to_equations. lia.
  - Z.div_mod_to_equations. lia.
  - Z.div_mod_to_equations. lia.
  - Z.div_mod_to_equations. lia.
Qed.

Lemma japan_date_turns_at_15_utc_witness :
  exists now,
    get_japan_time 1717945199 = Some now
    /\ date_of now
       = (if 1717945199 mod 86400 <? 15 * 3600 then fst (gmtime 1717945199)
          else next_day (fst (gmtime 1717945199)))
    /\ hour now = (1717945199 mod 86400 / 3600 + 9) mod 24
    /\ minute now = 1717945199 mod 3600 / 60
    /\ second now = 1717945199 mod 60.
Proof.
  apply (japan_date_turns_at_15_utc 1717945199). unfold valid_clock. lia.
Defined.

(** X9. The datetime [get_japan_time] returns determines the reading: its
    day number and time of day, less nine hours, give the clock back, so two
    different readings never give the same datetime. *)
Theorem japan_time_determines_clock (clock : Z) (now : datetime) :
  valid_clock clock -> get_japan_time clock = Some now ->
  (toordinal (date_of now) - EPOCH_ORDINAL) * 86400
  + hour now * 3600 + minute now * 60 + second now - 9 * 3600 = clock
  /\ 0 <= hour now <= 23 /\ 0 <= minute now <= 59 /\ 0 <= second now <= 59.
Proof.
  intros Hc Hnow. pose proof (get_japan_time_ok clock Hc) as Hok. cbv zeta in Hok.
  rewrite Hok in Hnow. injection Hnow as <-. cbn [date_of hour minute second].
  rewrite toordinal_ord2ymd. unfold jst_ordinal, valid_clock in *.
  Z.div_mod_to_equations. lia.
Qed.

Lemma japan_time_determines_clock_witness :
  (toordinal (mkdate 2024 6 10) - EPOCH_ORDINAL) * 86400
  + 0 * 3600 + 0 * 60 + 0 - 9 * 3600 = 1717945200
  /\ 0 <= 0 <= 23 /\ 0 <= 0 <= 59 /\ 0 <= 0 <= 59.
Proof.
  apply (japan_time_determines_clock 1717945200
           (mkdatetime (mkdate 2024 6 10) 0 0 0)).
  - unfold valid_clock. lia.
  - reflexivity.
Defined.

End JapanTime.

(** ** A record made by the button *)

Module Recording.
Import Py Datetime App Spec Page.
Import CalendarFacts FormatFacts ClockFacts AggregationFacts FormatTimeFacts.

Lemma new_record_date now :
  new_record now !! u "date" = Some (VStr (strftime_Ymd (date_of now))).
Proof. unfold new_record. apply lookup_insert_eq. Qed.

Lemma new_record_time now :
  new_record now !! u "time" = Some (VStr (strftime_HMS now)).
Proof.
  unfold new_record. rewrite lookup_insert_ne by (vm_compute; discriminate).
  apply lookup_insert_eq.
Qed.

Lemma new_record_datetime now :
  new_record now !! u "datetime" = Some (VStr (strftime_Ymd_HMS now)).
Proof.
  unfold new_record. rewrite !lookup_insert_ne by (vm_compute; discriminate).
  apply lookup_singleton_eq.
Qed.

(** The fields of a datetime read from a valid clock. *)
Lemma japan_time_fields clock now :
  valid_clock clock -> get_japan_time clock = Some now ->
  date_of now = ord2ymd (jst_ordinal clock)
  /\ 0 <= hour now <= 23 /\ 0 <= minute now <= 59 /\ 0 <= second now <= 59.
Proof.
  intros Hc Hnow. pose proof (get_japan_time_ok clock Hc) as Hok. cbv zeta in Hok.
  rewrite Hok in Hnow. injection Hnow as <-. cbn [date_of hour minute second].
  split; [done|]. Z.div_mod_to_equations. lia.
Qed.

Lemma japan_time_exists clock :
  valid_clock clock ->
  exists now,
    get_japan_time clock = Some now
    /\ date_of now = ord2ymd (jst_ordinal clock)
    /\ 0 <= hour now <= 23 /\ 0 <= minute now <= 59 /\ 0 <= second now <= 59.
Proof.
  intros Hc. pose proof (get_japan_time_ok clock Hc) as Hok. cbv zeta in Hok.
  eexists. split; [exact Hok|]. by apply (japan_time_fields clock).
Qed.

Lemma strftime_HMS_digits now :
  0 <= hour now <= 23 -> 0 <= minute now <= 59 -> 0 <= second now <= 59 ->
  strftime_HMS now = hms_string (hour now) (minute now) (second now).
Proof.
  intros Hh Hm Hs. unfold strftime_HMS, hms_string.
  now rewrite !format_0d_2 by lia.
Qed.

Lemma date_is_new_record k now :
  date_is k (new_record now) = bool_decide (strftime_Ymd (date_of now) = k).
Proof. unfold date_is, get. rewrite new_record_date. reflexivity. Qed.

Lemma count_date_app k l1 l2 :
  count_date k (l1 ++ l2) = count_date k l1 + count_date k l2.
Proof.
  induction l1 as [|r l1 IH]; cbn [app].
  - rewrite count_date_nil. lia.
  - rewrite !count_date_cons, IH. lia.
Qed.

Lemma count_date_one k r : count_date k [r] = hits k r.
Proof. rewrite count_date_cons, count_date_nil. lia. Qed.

(** Keys of dates in range are equal only for equal day numbers. *)
Lemma key_eq_iff o o' :
  1 <= o <= MAXORDINAL -> 1 <= o' <= MAXORDINAL ->
  strftime_Ymd (ord2ymd o) = strftime_Ymd (ord2ymd o') <-> o = o'.
Proof.
  intros Ho Ho'. split; [|by intros ->].
  intros H. apply strftime_Ymd_inj in H; [|by apply ord2ymd_fits..].
  by apply ord2ymd_inj.
Qed.

Lemma in_week d o :
  In d (week o) <-> exists i, 0 <= i <= 6 /\ d = ord2ymd (o - i).
Proof.
  unfold week. rewrite List.in_map_iff. split.
  - intros (i & <- & Hi). exists i. split; [|done].
    cbn in Hi. intuition lia.
  - intros (i & Hi & ->). exists i. split; [done|].
    cbn. assert (i = 6 \/ i = 5 \/ i = 4 \/ i = 3 \/ i = 2 \/ i = 1 \/ i = 0) by lia.
    intuition.
Qed.

(** X1. The [time] field that the button writes is a string that
    [format_time_simple] parses: it is shown as the hour and the minute of
    the moment it was written. *)
Theorem recorded_time_is_displayed (decimal : Z -> option Z) (clock : Z) :
  ascii_digits decimal -> valid_clock clock ->
  exists now t,
    get_japan_time clock = Some now
    /\ new_record now !! u "time" = Some (VStr t)
    /\ t = hms_string (hour now) (minute now) (second now)
    /\ strptime_HMS decimal t
       = Some (mkdatetime (mkdate 1900 1 1) (hour now) (minute now) (second now))
    /\ format_time_simple decimal t = time_label (hour now) (minute now).
Proof.
  intros Ha Hc. destruct (japan_time_exists _ Hc) as (now & Hnow & _ & Hh & Hm & Hs).
  exists now, (strftime_HMS now). split; [exact Hnow|].
  split; [apply new_record_time|].
  rewrite strftime_HMS_digits by assumption. split; [done|].
  assert (Hp := strptime_HMS_canonical decimal _ _ _ Ha
                  ltac:(split; [apply Hh|lia]) ltac:(split; [apply Hm|lia])
                  ltac:(split; [apply Hs|lia])).
  split; [exact Hp|]. now rewrite (format_time_simple_parsed _ _ _ Hp).
Qed.

Lemma recorded_time_is_displayed_witness :
  exists now t,
    get_japan_time 1717945200 = Some now
    /\ new_record now !! u "time" = Some (VStr t)
    /\ t = hms_string (hour now) (minute now) (second now)
    /\ strptime_HMS ascii_decimal t
       = Some (mkdatetime (mkdate 1900 1 1) (hour now) (minute now) (second now))
    /\ format_time_simple ascii_decimal t = time_label (hour now) (minute now).
Proof.
  apply (recorded_time_is_displayed ascii_decimal 1717945200).
  - intros c _. reflexivity.
  - unfold valid_clock. lia.
Defined.

(** X2. A record made when the clock read [clock] adds one to the count of
    today at a later reading [clock'] when both readings fall on the same
    date in Japan, and nothing otherwise. *)
Theorem new_record_counts_on_its_day (pee_data : list record) (clock clock' : Z) :
  valid_clock clock -> valid_clock clock' ->
  exists now n,
    get_japan_time clock = Some now
    /\ get_today_pee_count pee_data clock' = Some n
    /\ get_today_pee_count (pee_data ++ [new_record now]) clock'
       = Some (n + if jst_ordinal clock =? jst_ordinal clock' then 1 else 0).
Proof.
  intros Hc Hc'. destruct (japan_time_exists _ Hc) as (now & Hnow & Hd & _).
  pose proof (jst_ordinal_week _ Hc) as Ho. pose proof (jst_ordinal_week _ Hc') as Ho'.
  exists now. eexists. split; [exact Hnow|].
  rewrite !(today_count_of_today _ _ _ (jst_today_ok _ Hc')).
  split; [reflexivity|]. f_equal.
  rewrite count_date_app, count_date_one. f_equal.
  unfold hits. rewrite date_is_new_record, Hd.
  destruct (Z.eqb_spec (jst_ordinal clock) (jst_ordinal clock')) as [Heq|Hne].
  - rewrite Heq. now rewrite bool_decide_eq_true_2.
  - rewrite bool_decide_eq_false_2; [done|].
    intros H. apply key_eq_iff in H; lia.
Qed.

Lemma new_record_counts_on_its_day_witness :
  exists now n,
    get_japan_time 1717945200 = Some now
    /\ get_today_pee_count example_records 1718031599 = Some n
    /\ get_today_pee_count (example_records ++ [new_record now]) 1718031599
       = Some (n + if jst_ordinal 1717945200 =? jst_ordinal 1718031599 then 1 else 0).
Proof.
  apply (new_record_counts_on_its_day example_records 1717945200 1718031599);
    unfold valid_clock; lia.
Defined.

(** X3. In the weekly series a record made at [clock] adds one to the bucket
    of its date and leaves the others alone; its date is one of the seven
    keys at [clock'] exactly from the day it was made to six days later. *)
Theorem new_record_stays_seven_days (pee_data : list record) (clock clock' : Z) :
  valid_clock clock -> valid_clock clock' ->
  exists now weekly_data,
    get_japan_time clock = Some now
    /\ get_weekly_pee_data pee_data clock' = Some weekly_data
    /\ get_weekly_pee_data (pee_data ++ [new_record now]) clock'
       = Some (List.map
                 (fun '(k, n) =>
                    (k, n + if bool_decide (k = strftime_Ymd (date_of now))
                            then 1 else 0))
                 weekly_data)
    /\ (In (strftime_Ymd (date_of now)) (keys weekly_data)
        <-> 0 <= jst_ordinal clock' - jst_ordinal clock <= 6).
Proof.
  intros Hc Hc'. destruct (japan_time_exists _ Hc) as (now & Hnow & Hd & _).
  pose proof (jst_ordinal_week _ Hc) as Ho. pose proof (jst_ordinal_week _ Hc') as Ho'.
  exists now. eexists. split; [exact Hnow|].
  rewrite !(weekly_ok _ _ Hc'). split; [reflexivity|]. rewrite Hd. split.
  - f_equal. rewrite List.map_map. apply List.map_ext. intros d. unfold bucket.
    f_equal. rewrite count_date_app, count_date_one. f_equal.
    unfold hits. rewrite date_is_new_record, Hd.
    repeat case_bool_decide; congruence.
  - unfold keys. rewrite List.map_map. cbn [fst bucket]. rewrite List.in_map_iff.
    split.
    + intros (d & Hk & Hin). apply in_week in Hin as (i & Hi & ->).
      apply key_eq_iff in Hk; lia.
    + intros Hr. exists (ord2ymd (jst_ordinal clock)). split; [done|].
      apply in_week. exists (jst_ordinal clock' - jst_ordinal clock).
      split; [done|]. f_equal. lia.
Qed.

Lemma new_record_stays_seven_days_witness :
  exists now weekly_data,
    get_japan_time 1717945200 = Some now
    /\ get_weekly_pee_data example_records 1718031599 = Some weekly_data
    /\ get_weekly_pee_data (example_records ++ [new_record now]) 1718031599
       = Some (List.map
                 (fun '(k, n) =>
                    (k, n + if bool_decide (k = strftime_Ymd (date_of now))
                            then 1 else 0))
                 weekly_data)
    /\ (In (strftime_Ymd (date_of now)) (keys weekly_data)
        <-> 0 <= jst_ordinal 1718031599 - jst_ordinal 1717945200 <= 6).
Proof.
  apply (new_record_stays_seven_days example_records 1717945200 1718031599);
    unfold valid_clock; lia.
Defined.



End Recording.

(** ** How the counts depend on the record list *)

Module Counting.
Import Py Datetime App Spec Order.
Import CalendarFacts FormatFacts ClockFacts AggregationFacts Aggregation Recording.

Lemma count_date_perm k l l' : Permutation l l' -> count_date k l = count_date k l'.
Proof.
  induction 1 as [|r l l' _ IH|r r' l|l l' l'' _ IH1 _ IH2].
  - reflexivity.
  - now rewrite !count_date_cons, IH.
  - rewrite !count_date_cons. lia.
  - now rewrite IH1.
Qed.

Lemma count_date_bounds k l : 0 <= count_date k l <= len l.
Proof.
  unfold count_date, len. pose proof (List.filter_length_le (date_is k) l). lia.
Qed.

Lemma values_buckets_sum pee_data o :
  sum (values (List.map (bucket pee_data) (week o)))
  = count_date (strftime_Ymd (ord2ymd (o - 6))) pee_data
    + count_date (strftime_Ymd (ord2ymd (o - 5))) pee_data
    + count_date (strftime_Ymd (ord2ymd (o - 4))) pee_data
    + count_date (strftime_Ymd (ord2ymd (o - 3))) pee_data
    + count_date (strftime_Ymd (ord2ymd (o - 2))) pee_data
    + count_date (strftime_Ymd (ord2ymd (o - 1))) pee_data
    + count_date (strftime_Ymd (ord2ymd (o - 0))) pee_data.
Proof.
  unfold values. rewrite List.map_map, map_week. cbn [snd bucket].
  rewrite !sum_cons, sum_nil. lia.
Qed.

(** X5. The order of the records does not matter: two lists with the same
    records in another order give the same weekly series and the same count
    of today. *)
Theorem counts_ignore_record_order (l l' : list record) (clock : Z) :
  valid_clock clock -> Permutation l l' ->
  get_weekly_pee_data l clock = get_weekly_pee_data l' clock
  /\ get_today_pee_count l clock = get_today_pee_count l' clock.
Proof.
  intros Hc Hp. split.
  - rewrite !(weekly_ok _ _ Hc). f_equal. apply List.map_ext. intros d.
    unfold bucket. f_equal. by apply count_date_perm.
  - rewrite !(today_count_of_today _ _ _ (jst_today_ok _ Hc)). f_equal.
    by apply count_date_perm.
Qed.

Lemma counts_ignore_record_order_witness :
  get_weekly_pee_data example_records 1717945200
  = get_weekly_pee_data (List.rev example_records) 1717945200
  /\ get_today_pee_count example_records 1717945200
     = get_today_pee_count (List.rev example_records) 1717945200.
Proof.
  apply (counts_ignore_record_order example_records (List.rev example_records)
           1717945200).
  - unfold valid_clock. lia.
  - apply Permutation_rev.
Defined.

(** X6. The counts of two lists put together are the sums of their counts:
    bucket by bucket for the weekly series, with the same keys, and for the
    count of today. *)
Theorem counts_add_up (l1 l2 : list record) (clock : Z) :
  valid_clock clock ->
  exists w1 w2 w n1 n2,
    get_weekly_pee_data l1 clock = Some w1
    /\ get_weekly_pee_data l2 clock = Some w2
    /\ get_weekly_pee_data (l1 ++ l2) clock = Some w
    /\ keys w = keys w1 /\ keys w = keys w2
    /\ values w = List.map (fun '(a, b) => a + b) (List.combine (values w1) (values w2))
    /\ get_today_pee_count l1 clock = Some n1
    /\ get_today_pee_count l2 clock = Some n2
    /\ get_today_pee_count (l1 ++ l2) clock = Some (n1 + n2).
Proof.
  intros Hc. set (ds := week (jst_ordinal clock)).
  set (today := strftime_Ymd (ord2ymd (jst_ordinal clock))).
  exists (List.map (bucket l1) ds), (List.map (bucket l2) ds),
    (List.map (bucket (l1 ++ l2)) ds), (count_date today l1), (count_date today l2).
  rewrite !(weekly_ok _ _ Hc), !(today_count_of_today _ _ _ (jst_today_ok _ Hc)).
  fold ds today. rewrite !keys_buckets, !values_buckets.
  repeat (split; [reflexivity|]). split; [|split; [reflexivity|]];
    [|split; [reflexivity|]].
  - clearbody ds. induction ds as [|d ds IH]; [done|].
    cbn [List.map List.combine]. rewrite count_date_app. f_equal. exact IH.
  - f_equal. apply count_date_app.
Qed.

Lemma counts_add_up_witness :
  exists w1 w2 w n1 n2,
    get_weekly_pee_data example_records 1717945200 = Some w1
    /\ get_weekly_pee_data [dated (u "2024-06-09")] 1717945200 = Some w2
    /\ get_weekly_pee_data (example_records ++ [dated (u "2024-06-09")]) 1717945200
       = Some w
    /\ keys w = keys w1 /\ keys w = keys w2
    /\ values w = List.map (fun '(a, b) => a + b) (List.combine (values w1) (values w2))
    /\ get_today_pee_count example_records 1717945200 = Some n1
    /\ get_today_pee_count [dated (u "2024-06-09")] 1717945200 = Some n2
    /\ get_today_pee_count (example_records ++ [dated (u "2024-06-09")]) 1717945200
       = Some (n1 + n2).
Proof.
  apply (counts_add_up example_records [dated (u "2024-06-09")] 1717945200).
  unfold valid_clock. lia.
Defined.

Lemma filter_len_le {A} (f : A -> bool) (l : list A) : len (List.filter f l) <= len l.
Proof. unfold len. pose proof (List.filter_length_le f l). lia. Qed.

(** X7. No count is negative, the count of today is at most the weekly
    total, and the weekly total is at most the number of records. *)
Theorem counts_are_bounded (pee_data : list record) (clock : Z) :
  valid_clock clock ->
  exists weekly_data n,
    get_weekly_pee_data pee_data clock = Some weekly_data
    /\ get_today_pee_count pee_data clock = Some n
    /\ (forall k c, In (k, c) weekly_data -> 0 <= c <= len pee_data)
    /\ 0 <= n <= sum (values weekly_data)
    /\ sum (values weekly_data) <= len pee_data.
Proof.
  intros Hc. pose proof (jst_ordinal_week _ Hc) as Ho.
  exists (List.map (bucket pee_data) (week (jst_ordinal clock))),
    (count_date (strftime_Ymd (ord2ymd (jst_ordinal clock))) pee_data).
  rewrite (weekly_ok _ _ Hc), (today_count_of_today _ _ _ (jst_today_ok _ Hc)).
  do 2 (split; [reflexivity|]). split_and!.
  - intros k c Hin. apply List.in_map_iff in Hin as (d & [= <- <-] & _).
    apply count_date_bounds.
  - apply count_date_bounds.
  - rewrite values_buckets_sum.
    set (o := jst_ordinal clock).
    pose proof (count_date_bounds (strftime_Ymd (ord2ymd (o - 6))) pee_data).
    pose proof (count_date_bounds (strftime_Ymd (ord2ymd (o - 5))) pee_data).
    pose proof (count_date_bounds (strftime_Ymd (ord2ymd (o - 4))) pee_data).
    pose proof (count_date_bounds (strftime_Ymd (ord2ymd (o - 3))) pee_data).
    pose proof (count_date_bounds (strftime_Ymd (ord2ymd (o - 2))) pee_data).
    pose proof (count_date_bounds (strftime_Ymd (ord2ymd (o - 1))) pee_data).
    rewrite (Z.sub_0_r o). lia.
  - unfold values. rewrite List.map_map. cbn [snd bucket].
    rewrite <- (List.map_map strftime_Ymd (fun k => count_date k pee_data)).
    rewrite window_total by (by apply week_keys_NoDup). apply filter_len_le.
Qed.

Lemma counts_are_bounded_witness :
  exists weekly_data n,
    get_weekly_pee_data example_records 1717945200 = Some weekly_data
    /\ get_today_pee_count example_records 1717945200 = Some n
    /\ (forall k c, In (k, c) weekly_data -> 0 <= c <= len example_records)
    /\ 0 <= n <= sum (values weekly_data)
    /\ sum (values weekly_data) <= len example_records.
Proof.
  apply (counts_are_bounded example_records 1717945200). unfold valid_clock. lia.
Defined.

End Counting.

(** ** The list of the day and the order of the keys *)

Module TodayList.
Import Py Datetime App Spec Page Order.
Import CalendarFacts FormatFacts ClockFacts AggregationFacts FormatTimeFacts.
Import Aggregation Recording.

Lemma today_rows_unfold decimal pee_data clock now today :
  get_japan_time clock = Some now -> date_of now = today ->
  today_rows decimal pee_data clock
  = Some (List.map
            (fun '(i, r) =>
               (i, format_time_value decimal (get_default r (u "time") (VStr (u "")))))
            (enumerate 1 (List.filter (date_is (strftime_Ymd today)) pee_data))).
Proof.
  intros Hnow <-. unfold today_rows. rewrite Hnow. reflexivity.
Qed.

Lemma today_rows_of_today decimal pee_data clock today :
  jst_today clock = Some today ->
  today_rows decimal pee_data clock
  = Some (List.map
            (fun '(i, r) =>
               (i, format_time_value decimal (get_default r (u "time") (VStr (u "")))))
            (enumerate 1 (List.filter (date_is (strftime_Ymd today)) pee_data))).
Proof.
  intros H. apply today_of in H as (now & Hnow & Hd).
  by apply (today_rows_unfold _ _ _ now).
Qed.

Lemma enumerate_fst {A} (l : list A) : forall s,
  List.map fst (enumerate s l)
  = List.map (fun i => s + Z.of_nat i) (seq 0 (length l)).
Proof.
  induction l as [|x l IH]; intros s; [done|].
  cbn [enumerate List.map length seq fst]. f_equal; [cbn; lia|].
  rewrite IH, <- List.seq_shift, List.map_map.
  apply List.map_ext. intros i. lia.
Qed.

Lemma enumerate_snd {A} (l : list A) : forall s, List.map snd (enumerate s l) = l.
Proof.
  induction l as [|x l IH]; intros s; [done|].
  cbn [enumerate List.map snd]. now rewrite IH.
Qed.

Lemma enumerate_length {A} (l : list A) : forall s, length (enumerate s l) = length l.
Proof. induction l as [|x l IH]; intros s; cbn; [done|]. now rewrite IH. Qed.

Lemma enumerate_map {A B} (f : A -> B) (l : list A) : forall s,
  List.map (fun '(i, x) => (i, f x)) (enumerate s l) = enumerate s (List.map f l).
Proof.
  induction l as [|x l IH]; intros s; [done|].
  cbn [enumerate List.map]. now rewrite IH.
Qed.

(** X10. The list of the day has one row for each record counted today, in
    the order of the record list and numbered from 1; a row shows the
    formatted [time] of its record. With the clock on the same date, the
    number of rows is the count of today. *)
Theorem today_list_matches_count
  (decimal : Z -> option Z) (pee_data : list record) (clock : Z) :
  valid_clock clock ->
  exists today rows n,
    jst_today clock = Some today
    /\ today_rows decimal pee_data clock = Some rows
    /\ get_today_pee_count pee_data clock = Some n
    /\ len rows = n
    /\ List.map fst rows = List.map (fun i => 1 + Z.of_nat i) (seq 0 (length rows))
    /\ List.map snd rows
       = List.map
           (fun r => format_time_value decimal (get_default r (u "time") (VStr (u ""))))
           (List.filter (date_is (strftime_Ymd today)) pee_data).
Proof.
  intros Hc. pose proof (jst_today_ok _ Hc) as Ht.
  set (today := ord2ymd (jst_ordinal clock)) in *.
  set (f := fun r : record =>
              format_time_value decimal (get_default r (u "time") (VStr (u "")))).
  set (l := List.filter (date_is (strftime_Ymd today)) pee_data).
  exists today, (enumerate 1 (List.map f l)), (len l).
  split; [exact Ht|]. split.
  { rewrite (today_rows_of_today _ _ _ _ Ht). f_equal. apply enumerate_map. }
  split; [by rewrite (today_count_of_today _ _ _ Ht)|].
  split; [unfold len; now rewrite enumerate_length, List.length_map|].
  split; [rewrite enumerate_length; apply enumerate_fst|apply enumerate_snd].
Qed.

Lemma today_list_matches_count_witness :
  exists today rows n,
    jst_today 1717945200 = Some today
    /\ today_rows ascii_decimal example_records 1717945200 = Some rows
    /\ get_today_pee_count example_records 1717945200 = Some n
    /\ len rows = n
    /\ List.map fst rows = List.map (fun i => 1 + Z.of_nat i) (seq 0 (length rows))
    /\ List.map snd rows
       = List.map
           (fun r => format_time_value ascii_decimal
                       (get_default r (u "time") (VStr (u ""))))
           (List.filter (date_is (strftime_Ymd today)) example_records).
Proof.
  apply (today_list_matches_count ascii_decimal example_records 1717945200).
  unfold valid_clock. lia.
Defined.

Lemma date_eqb_refl d : date_eqb d d = true.
Proof. unfold date_eqb. now rewrite !Z.eqb_refl. Qed.

Lemma date_is_new_record_eqb now today :
  fits (date_of now) -> fits today ->
  date_is (strftime_Ymd today) (new_record now) = date_eqb (date_of now) today.
Proof.
  intros Hn Ht. rewrite date_is_new_record.
  destruct (date_eqb (date_of now) today) eqn:E.
  - apply date_eqb_eq in E. rewrite E. now apply bool_decide_eq_true_2.
  - apply bool_decide_eq_false_2. intros H.
    apply strftime_Ymd_inj in H; [|done..]. rewrite H, date_eqb_refl in E. discriminate.
Qed.

(** X11. When every record was made by the button, the list of the day
    shows, numbered from 1 and in the order they were made, the hour and
    minute of the records made on today's date. *)
Theorem today_list_of_button_records
  (decimal : Z -> option Z) (clocks : list Z) (nows : list datetime)
  (clock : Z) (today : date) :
  ascii_digits decimal ->
  Forall2 (fun c now => valid_clock c /\ get_japan_time c = Some now) clocks nows ->
  valid_clock clock -> jst_today clock = Some today ->
  today_rows decimal (List.map new_record nows) clock
  = Some (enumerate 1
            (List.map (fun now => VStr (time_label (hour now) (minute now)))
                      (List.filter (fun now => date_eqb (date_of now) today) nows))).
Proof.
  intros Ha Hall Hc Ht. rewrite (today_rows_of_today _ _ _ _ Ht). f_equal.
  rewrite enumerate_map. f_equal.
  assert (Hfit : fits today).
  { rewrite (jst_today_ok _ Hc) in Ht. injection Ht as <-.
    apply ord2ymd_fits. pose proof (jst_ordinal_week _ Hc). lia. }
  induction Hall as [|c now cs ns [Hvc Hnow] _ IH]; [done|].
  cbn [List.map List.filter].
  destruct (japan_time_fields _ _ Hvc Hnow) as (Hd & Hh & Hm & Hs).
  assert (Hfn : fits (date_of now)).
  { rewrite Hd. apply ord2ymd_fits. pose proof (jst_ordinal_week _ Hvc). lia. }
  rewrite (date_is_new_record_eqb _ _ Hfn Hfit).
  destruct (date_eqb (date_of now) today); [|exact IH].
  cbn [List.map]. rewrite IH. f_equal.
  unfold get_default. rewrite new_record_time. cbn [default from_option id].
  unfold format_time_value. f_equal.
  rewrite strftime_HMS_digits by assumption.
  rewrite (format_time_simple_parsed _ _ _
             (strptime_HMS_canonical decimal (hour now) (minute now) (second now)
                Ha ltac:(lia) ltac:(lia) ltac:(lia))).
  reflexivity.
Qed.

Lemma today_list_of_button_records_witness :
  today_rows ascii_decimal
    (List.map new_record [mkdatetime (mkdate 2024 6 10) 0 0 0]) 1717945200
  = Some (enumerate 1
            (List.map (fun now => VStr (time_label (hour now) (minute now)))
                      (List.filter
                         (fun now => date_eqb (date_of now) (mkdate 2024 6 10))
                         [mkdatetime (mkdate 2024 6 10) 0 0 0]))).
Proof.
  apply (today_list_of_button_records ascii_decimal [1717945200]
           [mkdatetime (mkdate 2024 6 10) 0 0 0] 1717945200 (mkdate 2024 6 10)).
  - intros c _. reflexivity.
  - constructor; [|constructor]. split; [unfold valid_clock; lia|reflexivity].
  - unfold valid_clock. lia.
  - reflexivity.
Defined.

Lemma str_ltb_dates a b :
  fits a -> fits b -> date_lt a b ->
  str_ltb (strftime_Ymd a) (strftime_Ymd b) = true.
Proof.
  intros Ha Hb Hlt. rewrite !strftime_Ymd_digits by assumption.
  destruct a as [ya ma da], b as [yb mb db].
  unfold fits, date_lt in *. cbn [year month day] in *.
  unfold digits4, digits2. cbn [app str_ltb].
  repeat match goal with
         | |- (if ?x <? ?y then _ else _) = true =>
           destruct (Z.ltb_spec x y); [reflexivity|];
           destruct (Z.eqb_spec x y);
           [|exfalso; Z.div_mod_to_equations; lia]
         end.
  exfalso. Z.div_mod_to_equations. lia.
Qed.

(** X12. The keys of the weekly series go up in the order of strings: each
    key is less than the next, so sorting them would leave them as they
    are. *)
Theorem weekly_keys_ascend (pee_data : list record) (clock : Z) :
  valid_clock clock ->
  exists weekly_data,
    get_weekly_pee_data pee_data clock = Some weekly_data
    /\ forall (i : nat) (a b : list Z),
         keys weekly_data !! i = Some a -> keys weekly_data !! S i = Some b ->
         str_ltb a b = true.
Proof.
  intros Hc. pose proof (jst_ordinal_week _ Hc) as Ho.
  exists (List.map (bucket pee_data) (week (jst_ordinal clock))).
  split; [by apply weekly_ok|]. rewrite keys_buckets.
  set (o := jst_ordinal clock) in *.
  assert (Hstep : forall k, 1 <= k <= 6 ->
            str_ltb (strftime_Ymd (ord2ymd (o - k)))
                    (strftime_Ymd (ord2ymd (o - (k - 1)))) = true).
  { intros k Hk. apply str_ltb_dates; [apply ord2ymd_fits; lia..|].
    replace (o - (k - 1)) with (o - k + 1) by lia.
    rewrite ord2ymd_succ. apply next_day_lt. }
  rewrite map_week. intros i a b.
  destruct i as [|[|[|[|[|[|i]]]]]]; cbn [lookup list_lookup];
    intros Ha Hb; try (destruct i; discriminate Hb);
    injection Ha as <-; injection Hb as <-.
  - apply (Hstep 6). lia.
  - apply (Hstep 5). lia.
  - apply (Hstep 4). lia.
  - apply (Hstep 3). lia.
  - apply (Hstep 2). lia.
  - apply (Hstep 1). lia.
Qed.

Lemma weekly_keys_ascend_witness :
  exists weekly_data,
    get_weekly_pee_data example_records 1717945200 = Some weekly_data
    /\ forall (i : nat) (a b : list Z),
         keys weekly_data !! i = Some a -> keys weekly_data !! S i = Some b ->
         str_ltb a b = true.
Proof.
  apply (weekly_keys_ascend example_records 1717945200). unfold valid_clock. lia.
Defined.

End TodayList.

(** ** Reading and writing the spreadsheet *)

Module Persistence.
Import Py Store.

(** X13. [save_pee_record] never lets an exception out. It answers [True]
    only when the record has the three fields, and then shows nothing; it
    answers [False] after showing exactly one error, whatever failed: the
    connection, the worksheet, its creation, a missing field or the
    append. *)
Theorem save_pee_record_never_raises (svc : service) (record : record) (w : world svc) :
  exists b w',
    save_pee_record svc record w = (Ret b, w')
    /\ (if b
        then errors w' = errors w
             /\ is_Some (record !! u "date") /\ is_Some (record !! u "time")
             /\ is_Some (record !! u "datetime")
        else exists e, errors w' = errors w ++ [(u "保存エラー: ", e)]).
Proof.
  cbv beta iota delta [save_pee_record try_except bind get_spreadsheet
                        get_google_connection call getitem ret raise st_error].
  repeat (next_call; cbn [store errors]);
    (eexists _, _; split; [reflexivity|]); cbn [store errors]; eauto 10.
Qed.

(** X14. [load_pee_data] returns what the worksheet holds and shows
    nothing, or returns the empty list: without a message when it has just
    created the missing worksheet, and after exactly one error message for
    any other exception. An exception raised while it creates the missing
    worksheet is not caught: it gets out, with no message shown, as with the
    service that reports the sheet missing and then refuses to add it. *)
Theorem load_pee_data_outcomes :
  (forall (svc : service) (w : world svc),
      match load_pee_data svc w with
      | (Ret records, w') =>
        errors w' = errors w
        \/ (records = []
            /\ exists e, e <> WorksheetNotFound
                         /\ errors w' = errors w ++ [(u "データ読み込みエラー: ", e)])
      | (Raise e, w') => errors w' = errors w
      end)
  /\ (forall w : world broken_service,
        load_pee_data broken_service w = (Raise (Other tt), w)).
Proof.
  split.
  - intros svc w.
    cbv beta iota delta [load_pee_data try_except bind get_spreadsheet
                          get_google_connection call getitem ret raise st_error].
    repeat (next_call; cbn [store errors]);
      first [ reflexivity
            | left; reflexivity
            | right; (split; [reflexivity|]); eexists;
              (split; [|reflexivity]); discriminate ].
  - intros [[] errs]. reflexivity.
Qed.

(** X15. [save_bp_record] never lets an exception out. It answers [True]
    only when the record has the seven fields, and then shows nothing; it
    answers [False] after showing exactly one error. *)
Theorem save_bp_record_never_raises (svc : service) (record : record) (w : world svc) :
  exists b w',
    save_bp_record svc record w = (Ret b, w')
    /\ (if b
        then errors w' = errors w
             /\ Forall (fun k => is_Some (record !! k))
                  [u "date"; u "time"; u "datetime"; u "systolic"; u "diastolic";
                   u "pulse"; u "memo"]
        else exists e, errors w' = errors w ++ [(u "保存エラー: ", e)]).
Proof.
  cbv beta iota delta [save_bp_record try_except bind get_spreadsheet
                        get_google_connection call getitem ret raise st_error].
  repeat (next_call; cbn [store errors]);
    (eexists _, _; split; [reflexivity|]); cbn [store errors]; eauto 10.
Qed.

(** X16. [load_bp_data] behaves like [load_pee_data]: the records and no
    message, or the empty list with at most one error message; what is
    raised while it creates the missing worksheet gets out. *)
Theorem load_bp_data_outcomes :
  (forall (svc : service) (w : world svc),
      match load_bp_data svc w with
      | (Ret records, w') =>
        errors w' = errors w
        \/ (records = []
            /\ exists e, e <> WorksheetNotFound
                         /\ errors w' = errors w ++ [(u "データ読み込みエラー: ", e)])
      | (Raise e, w') => errors w' = errors w
      end)
  /\ (forall w : world broken_service,
        load_bp_data broken_service w = (Raise (Other tt), w)).
Proof.
  split.
  - intros svc w.
    cbv beta iota delta [load_bp_data try_except bind get_spreadsheet
                          get_google_connection call getitem ret raise st_error].
    repeat (next_call; cbn [store errors]);
      first [ reflexivity
            | left; reflexivity
            | right; (split; [reflexivity|]); eexists;
              (split; [|reflexivity]); discriminate ].
  - intros [[] errs]. reflexivity.
Qed.

End Persistence.

(** ** The programs on a spreadsheet in memory *)

Module InMemory.
Import Py Datetime App Spec Page Store.
Import CalendarFacts FormatFacts ClockFacts AggregationFacts Recording.

Lemma pee_keys : header_keys pee_header = Some [u "date"; u "time"; u "datetime"].
Proof. reflexivity. Qed.

Lemma row_record_pee read_cell d t dt :
  read_cell d = d -> read_cell t = t -> read_cell dt = dt ->
  let r := row_record read_cell [u "date"; u "time"; u "datetime"] [d; t; dt] in
  r !! u "date" = Some d /\ r !! u "time" = Some t /\ r !! u "datetime" = Some dt.
Proof.
  intros Hd Ht Hdt. unfold row_record. cbn [fmap list_fmap zip zip_with reverse].
  rewrite Hd, Ht, Hdt. cbn. split_and!.
  - rewrite !lookup_insert_ne by (vm_compute; discriminate). apply lookup_insert_eq.
  - rewrite lookup_insert_ne by (vm_compute; discriminate). apply lookup_insert_eq.
  - apply lookup_insert_eq.
Qed.

Lemma load_existing (read_cell : value -> value)
  (sheets : gmap (list Z) (list (list value))) errs rows :
  sheets !! u "トイレ記録" = Some (pee_header :: rows) ->
  load_pee_data (memory_service read_cell) (memory_world read_cell sheets errs)
  = (Ret (row_record read_cell [u "date"; u "time"; u "datetime"] <$> rows),
     memory_world read_cell sheets errs).
Proof.
  intros H. unfold memory_world. run_program. rewrite H. cbn [store errors].
  rewrite H. reflexivity.
Qed.

Lemma load_absent (read_cell : value -> value)
  (sheets : gmap (list Z) (list (list value))) errs :
  sheets !! u "トイレ記録" = None ->
  load_pee_data (memory_service read_cell) (memory_world read_cell sheets errs)
  = (Ret [], memory_world read_cell (<[u "トイレ記録" := [pee_header]]> sheets) errs).
Proof.
  intros H. unfold memory_world. run_program. rewrite H. cbn [store errors].
  rewrite H. cbn [store errors]. rewrite lookup_insert_eq. cbn [store errors app].
  rewrite insert_insert_eq. reflexivity.
Qed.

Lemma save_existing (read_cell : value -> value)
  (sheets : gmap (list Z) (list (list value))) (errs : list (list Z * exn unit))
  (rows : list (list value)) (record : record) (d t dt : value) :
  sheets !! u "トイレ記録" = Some rows ->
  record !! u "date" = Some d -> record !! u "time" = Some t ->
  record !! u "datetime" = Some dt ->
  save_pee_record (memory_service read_cell) record (memory_world read_cell sheets errs)
  = (Ret true,
     memory_world read_cell (<[u "トイレ記録" := rows ++ [[d; t; dt]]]> sheets) errs).
Proof.
  intros H Hd Ht Hdt. unfold memory_world. run_program.
  rewrite H, Hd, Ht, Hdt. cbn [store errors]. rewrite H. reflexivity.
Qed.

Lemma save_absent (read_cell : value -> value)
  (sheets : gmap (list Z) (list (list value))) (errs : list (list Z * exn unit))
  (record : record) (d t dt : value) :
  sheets !! u "トイレ記録" = None ->
  record !! u "date" = Some d -> record !! u "time" = Some t ->
  record !! u "datetime" = Some dt ->
  save_pee_record (memory_service read_cell) record (memory_world read_cell sheets errs)
  = (Ret true,
     memory_world read_cell (<[u "トイレ記録" := [pee_header; [d; t; dt]]]> sheets) errs).
Proof.
  intros H Hd Ht Hdt. unfold memory_world. run_program.
  rewrite H, Hd, Ht, Hdt. cbn [store errors]. rewrite H. cbn [store errors].
  rewrite !lookup_insert_eq. cbn [store errors app]. rewrite lookup_insert_eq.
  cbn [store errors app]. rewrite !insert_insert_eq. reflexivity.
Qed.

(** X17. On a spreadsheet in memory whose worksheet is missing or starts
    with the header row, the sequence of the page, load, save, load again,
    never fails: the second load returns the records of the first followed
    by one record with the [date], [time] and [datetime] that were saved,
    provided these three cells read back as they were written. Nothing is
    shown as an error. *)
Theorem load_save_load (read_cell : value -> value)
  (sheets : gmap (list Z) (list (list value))) (errs : list (list Z * exn unit))
  (record : record) (d t dt : value) :
  record !! u "date" = Some d -> record !! u "time" = Some t ->
  record !! u "datetime" = Some dt ->
  read_cell d = d -> read_cell t = t -> read_cell dt = dt ->
  sheets !! u "トイレ記録" = None
  \/ (exists rows, sheets !! u "トイレ記録" = Some (pee_header :: rows)) ->
  exists old saved w0 w1 w2,
    load_pee_data (memory_service read_cell) (memory_world read_cell sheets errs)
    = (Ret old, w0)
    /\ save_pee_record (memory_service read_cell) record w0 = (Ret true, w1)
    /\ load_pee_data (memory_service read_cell) w1 = (Ret (old ++ [saved]), w2)
    /\ saved !! u "date" = Some d /\ saved !! u "time" = Some t
    /\ saved !! u "datetime" = Some dt
    /\ errors w2 = errs.
Proof.
  intros Hd Ht Hdt Rd Rt Rdt Hsheet.
  pose proof (row_record_pee read_cell d t dt Rd Rt Rdt) as Hsaved. cbv zeta in Hsaved.
  set (ks := [u "date"; u "time"; u "datetime"]) in *.
  assert (Hflow : forall (sh : gmap (list Z) (list (list value))) rows,
             sh !! u "トイレ記録" = Some (pee_header :: rows) ->
             exists w1 w2,
               save_pee_record (memory_service read_cell) record
                 (memory_world read_cell sh errs) = (Ret true, w1)
               /\ load_pee_data (memory_service read_cell) w1
                  = (Ret ((row_record read_cell ks <$> rows)
                          ++ [row_record read_cell ks [d; t; dt]]), w2)
               /\ errors w2 = errs).
  { intros sh rows Hsh. do 2 eexists. split_and!.
    - apply (save_existing _ _ _ _ _ _ _ _ Hsh Hd Ht Hdt).
    - rewrite (load_existing _ _ _ (rows ++ [[d; t; dt]])).
      + rewrite fmap_app. reflexivity.
      + rewrite lookup_insert_eq. reflexivity.
    - reflexivity. }
  destruct Hsheet as [Habs|[rows Hex]].
  - destruct (Hflow (<[u "トイレ記録" := [pee_header]]> sheets) [])
      as (w1 & w2 & Hs & Hl & He); [apply lookup_insert_eq|].
    exists [], (row_record read_cell ks [d; t; dt]),
      (memory_world read_cell (<[u "トイレ記録" := [pee_header]]> sheets) errs), w1, w2.
    split; [by apply load_absent|]. split; [exact Hs|]. split; [exact Hl|].
    destruct Hsaved as (? & ? & ?). by split_and!.
  - destruct (Hflow sheets rows Hex) as (w1 & w2 & Hs & Hl & He).
    exists (row_record read_cell ks <$> rows), (row_record read_cell ks [d; t; dt]),
      (memory_world read_cell sheets errs), w1, w2.
    split; [by apply load_existing|]. split; [exact Hs|]. split; [exact Hl|].
    destruct Hsaved as (? & ? & ?). by split_and!.
Qed.

Lemma load_save_load_witness :
  exists old saved w0 w1 w2,
    load_pee_data (memory_service id) (memory_world id ∅ [])
    = (Ret old, w0)
    /\ save_pee_record (memory_service id) (dated (u "2024-06-10")
                          ∪ {[ u "time" := VStr (u "16:10:00");
                               u "datetime" := VStr (u "2024-06-10 16:10:00") ]}) w0
       = (Ret true, w1)
    /\ load_pee_data (memory_service id) w1 = (Ret (old ++ [saved]), w2)
    /\ saved !! u "date" = Some (VStr (u "2024-06-10"))
    /\ saved !! u "time" = Some (VStr (u "16:10:00"))
    /\ saved !! u "datetime" = Some (VStr (u "2024-06-10 16:10:00"))
    /\ errors w2 = [].
Proof.
  apply (load_save_load id ∅ []
           (dated (u "2024-06-10")
            ∪ {[ u "time" := VStr (u "16:10:00");
                 u "datetime" := VStr (u "2024-06-10 16:10:00") ]})
           (VStr (u "2024-06-10")) (VStr (u "16:10:00"))
           (VStr (u "2024-06-10 16:10:00")));
    try reflexivity.
  left. reflexivity.
Defined.

Lemma hits_of_date (k : list Z) (r : record) (d : list Z) :
  r !! u "date" = Some (VStr d) -> hits k r = if bool_decide (d = k) then 1 else 0.
Proof. intros H. unfold hits, date_is, get. rewrite H. reflexivity. Qed.

(** X18. Pressing the button, on a spreadsheet in memory: the page loads the
    records, saves the record of the moment and loads again. The count of
    today for the records loaded again is one more than for those loaded
    first when it is taken on the date the button was pressed, and the same
    on any other date; the cells written must read back as written. *)
Theorem button_adds_one_today (read_cell : value -> value)
  (sheets : gmap (list Z) (list (list value))) (errs : list (list Z * exn unit))
  (clock clock' : Z) (now : datetime) :
  valid_clock clock -> valid_clock clock' ->
  get_japan_time clock = Some now ->
  read_cell (VStr (strftime_Ymd (date_of now))) = VStr (strftime_Ymd (date_of now)) ->
  read_cell (VStr (strftime_HMS now)) = VStr (strftime_HMS now) ->
  read_cell (VStr (strftime_Ymd_HMS now)) = VStr (strftime_Ymd_HMS now) ->
  sheets !! u "トイレ記録" = None
  \/ (exists rows, sheets !! u "トイレ記録" = Some (pee_header :: rows)) ->
  exists before after n w0 w1 w2,
    load_pee_data (memory_service read_cell) (memory_world read_cell sheets errs)
    = (Ret before, w0)
    /\ save_pee_record (memory_service read_cell) (new_record now) w0 = (Ret true, w1)
    /\ load_pee_data (memory_service read_cell) w1 = (Ret after, w2)
    /\ get_today_pee_count before clock' = Some n
    /\ get_today_pee_count after clock'
       = Some (n + if jst_ordinal clock =? jst_ordinal clock' then 1 else 0).
Proof.
  intros Hc Hc' Hnow Rd Rt Rdt Hsheet.
  destruct (load_save_load read_cell sheets errs (new_record now) _ _ _
              (new_record_date now) (new_record_time now) (new_record_datetime now)
              Rd Rt Rdt Hsheet)
    as (old & saved & w0 & w1 & w2 & Hl0 & Hs & Hl1 & Hsd & _).
  destruct (japan_time_fields _ _ Hc Hnow) as (Hd & _).
  pose proof (jst_ordinal_week _ Hc) as Ho. pose proof (jst_ordinal_week _ Hc') as Ho'.
  exists old, (old ++ [saved]),
    (count_date (strftime_Ymd (ord2ymd (jst_ordinal clock'))) old), w0, w1, w2.
  split; [exact Hl0|]. split; [exact Hs|]. split; [exact Hl1|].
  rewrite !(today_count_of_today _ _ _ (jst_today_ok _ Hc')).
  split; [reflexivity|]. f_equal.
  rewrite count_date_app, count_date_one, (hits_of_date _ _ _ Hsd), Hd. f_equal.
  destruct (Z.eqb_spec (jst_ordinal clock) (jst_ordinal clock')) as [Heq|Hne].
  - rewrite Heq. now rewrite bool_decide_eq_true_2.
  - rewrite bool_decide_eq_false_2; [done|].
    intros H. apply key_eq_iff in H; lia.
Qed.

Lemma button_adds_one_today_witness :
  exists before after n w0 w1 w2,
    load_pee_data (memory_service id) (memory_world id ∅ []) = (Ret before, w0)
    /\ save_pee_record (memory_service id)
         (new_record (mkdatetime (mkdate 2024 6 10) 0 0 0)) w0 = (Ret true, w1)
    /\ load_pee_data (memory_service id) w1 = (Ret after, w2)
    /\ get_today_pee_count before 1718031599 = Some n
    /\ get_today_pee_count after 1718031599
       = Some (n + if jst_ordinal 1717945200 =? jst_ordinal 1718031599 then 1 else 0).
Proof.
  apply (button_adds_one_today id ∅ [] 1717945200 1718031599
           (mkdatetime (mkdate 2024 6 10) 0 0 0)).
  - unfold valid_clock. lia.
  - unfold valid_clock. lia.
  - reflexivity.
  - reflexivity.
  - reflexivity.
  - reflexivity.
  - left. reflexivity.
Defined.

(** X19. A worksheet that exists but has no row at all, not even the
    header: [save_pee_record] answers [True], yet the row it appends becomes
    the first row, which is read as the header, and the next load returns no
    record. *)
Theorem save_into_headerless_sheet (read_cell : value -> value)
  (sheets : gmap (list Z) (list (list value))) (errs : list (list Z * exn unit))
  (record : record) (d t dt : value) :
  sheets !! u "トイレ記録" = Some [] ->
  record !! u "date" = Some d -> record !! u "time" = Some t ->
  record !! u "datetime" = Some dt ->
  exists w1 w2,
    save_pee_record (memory_service read_cell) record (memory_world read_cell sheets errs)
    = (Ret true, w1)
    /\ errors w1 = errs
    /\ load_pee_data (memory_service read_cell) w1 = (Ret [], w2).
Proof.
  intros Hsh Hd Ht Hdt.
  rewrite (save_existing _ _ _ _ _ _ _ _ Hsh Hd Ht Hdt). cbn [app].
  destruct (header_keys [d; t; dt]) as [ks|] eqn:Hk;
    (eexists; eexists; split; [reflexivity|]; split; [reflexivity|];
     unfold memory_world; run_program; rewrite !lookup_insert_eq;
     cbn [store errors]; rewrite !lookup_insert_eq, Hk; reflexivity).
Qed.

Lemma save_into_headerless_sheet_witness :
  exists w1 w2,
    save_pee_record (memory_service id)
      (new_record (mkdatetime (mkdate 2024 6 10) 0 0 0))
      (memory_world id {[ u "トイレ記録" := [] ]} [])
    = (Ret true, w1)
    /\ errors w1 = []
    /\ load_pee_data (memory_service id) w1 = (Ret [], w2).
Proof.
  apply (save_into_headerless_sheet id {[ u "トイレ記録" := [] ]} []
           (new_record (mkdatetime (mkdate 2024 6 10) 0 0 0))
           (VStr (u "2024-06-10")) (VStr (u "00:00:00"))
           (VStr (u "2024-06-10 00:00:00"))); reflexivity.
Defined.

End InMemory.

(** ** The page on no records *)

Module EmptyPage.
Import Py Datetime App Spec Page.
Import CalendarFacts FormatFacts ClockFacts AggregationFacts Aggregation TodayList.

(** X20. With no records, which is also what a failed load leaves, the page
    shows a count of 0, no row in the list of the day, seven buckets of 0,
    a total of 0 and an average of 0. *)
Theorem page_without_records (decimal : Z -> option Z) (clock : Z) :
  valid_clock clock ->
  exists weekly_data avg,
    get_today_pee_count [] clock = Some 0
    /\ today_rows decimal [] clock = Some []
    /\ get_weekly_pee_data [] clock = Some weekly_data
    /\ length weekly_data = 7%nat
    /\ (forall k n, In (k, n) weekly_data -> n = 0)
    /\ weekly_statistics [] clock = Some (0, avg)
    /\ (avg == 0)%Q.
Proof.
  intros Hc. pose proof (jst_today_ok _ Hc) as Ht.
  exists (List.map (bucket []) (week (jst_ordinal clock))), (inject_Z 0 / 7)%Q.
  split; [by rewrite (today_count_of_today _ _ _ Ht)|].
  split; [by rewrite (today_rows_of_today _ _ _ _ Ht)|].
  split; [by apply weekly_ok|].
  split; [rewrite List.length_map; apply week_length|].
  split.
  { intros k n Hin. apply List.in_map_iff in Hin as (d & [= <- <-] & _).
    apply count_date_nil. }
  split; [|reflexivity].
  rewrite (weekly_statistics_unfold _ _ _ (weekly_ok _ _ Hc)).
  assert (Hsum : sum (values (List.map (bucket []) (week (jst_ordinal clock)))) = 0).
  { rewrite values_buckets. apply sum_map_zero. }
  now rewrite Hsum.
Qed.

Lemma page_without_records_witness :
  exists weekly_data avg,
    get_today_pee_count [] 1717945200 = Some 0
    /\ today_rows ascii_decimal [] 1717945200 = Some []
    /\ get_weekly_pee_data [] 1717945200 = Some weekly_data
    /\ length weekly_data = 7%nat
    /\ (forall k n, In (k, n) weekly_data -> n = 0)
    /\ weekly_statistics [] 1717945200 = Some (0, avg)
    /\ (avg == 0)%Q.
Proof.
  apply (page_without_records ascii_decimal 1717945200). unfold valid_clock. lia.
Defined.

End EmptyPage.
